(** * AQ_SpikeAlerts: spike detection and alert bookkeeping

    A shallow embedding of [Scripts/python/Get_spikes_df.py] and
    [Scripts/python/Send_Alerts.py], followed by the properties of the
    specification that concern them.

    Conventions.
    - A pandas DataFrame is a list of rows; a row is a record with one field
      per column.  A cell that pandas holds as [None]/[NaN]/[NaT] is [None].
    - Readings are JSON numbers read as floats; only their order is used, so
      they are rationals ([Q]).
    - Points in time are integers counting microseconds.
    - Clock reads, the HTTP request and the database are explicit state. *)

From Stdlib Require Import ZArith QArith List Bool String Ascii Lia.
From Stdlib Require Import DecimalString DecimalPos DecimalZ.
Import ListNotations.

Local Open Scope Z_scope.

(** ** Nullable cells and pandas' element-wise comparisons

    A comparison of a null cell with a scalar is [False], except [!=], which
    is [True]. *)

Module Cell.

Definition ne_Z (x : option Z) (k : Z) : bool :=
  match x with Some v => negb (v =? k) | None => true end.

Definition eq_Z (x : option Z) (k : Z) : bool :=
  match x with Some v => v =? k | None => false end.

Definition lt_Z (x : option Z) (k : Z) : bool :=
  match x with Some v => v <? k | None => false end.

Definition Qlt_bool (a b : Q) : bool :=
  match (a ?= b)%Q with Lt => true | _ => false end.

Definition Qge_bool (a b : Q) : bool :=
  match (a ?= b)%Q with Lt => false | _ => true end.

Definition lt_Q (x : option Q) (k : Q) : bool :=
  match x with Some v => Qlt_bool v k | None => false end.

Definition ge_Q (x : option Q) (k : Q) : bool :=
  match x with Some v => Qge_bool v k | None => false end.

Definition notna {A} (x : option A) : bool :=
  match x with Some _ => true | None => false end.

End Cell.

(** ** Get_spikes_df.py *)

Module GetSpikes.

Import Cell.

(** *** Time *)

Definition microseconds (seconds : Z) : Z := seconds * 1000000.

(** [pd.Timedelta(hours=h)] and [dt.timedelta(minutes=m)]. *)
Definition Timedelta_hours (h : Z) : Z := microseconds (h * 3600).
Definition timedelta_minutes (m : Z) : Z := microseconds (m * 60).

(** [pd.to_datetime(s, unit='s')]: seconds since the epoch to a timestamp. *)
Definition to_datetime_s (s : Z) : Z := microseconds s.

(** A timezone-aware [datetime]: the instant and the zone it is shown in. *)
Record datetime := { instant : Z; tzname : string }.

(** *** Tables *)

(** One row of [response_dict['data']]; the provider sends [sensor_index]
    with every row, then the four fields asked for.  [a_last_seen] is in
    seconds since the epoch. *)
Record api_row := {
  a_sensor_index : Z;
  a_pm2_5_10minute : option Q;
  a_channel_flags : option Z;
  a_channel_state : option Z;
  a_last_seen : option Z
}.

(** One row of [sensors_df]. *)
Record sensors_row := {
  sensor_index : Z;
  pm2_5_10minute : option Q;
  channel_flags : option Z;
  channel_state : option Z;
  last_seen : option Z
}.

(** One row of [clean_df]: the reading column is called [pm25]. *)
Record clean_row := {
  c_sensor_index : Z;
  pm25 : option Q;
  c_channel_flags : option Z;
  c_channel_state : option Z;
  c_last_seen : option Z
}.

(** One row of [spikes_df]: columns [sensor_index] and [pm25]. *)
Record spike_row := {
  s_sensor_index : Z;
  s_pm25 : option Q
}.

(** *** The outside world: clock, provider, request log *)

Inductive event :=
| ClockRead (tz : option string)
| HttpGet (url : string) (api_read_key : string).

Record world := {
  utc_clock : Z;                 (* the present instant *)
  local_utcoffset : Z;           (* offset of the host's own zone *)
  latency : Z;                   (* time a request takes *)
  purpleair : string -> string -> list api_row;  (* url, key |-> data *)
  trace : list event             (* oldest first *)
}.

Definition M (A : Type) : Type := world -> A * world.

Definition ret {A} (a : A) : M A := fun w => (a, w).

Definition bind {A B} (m : M A) (k : A -> M B) : M B :=
  fun w => let (a, w') := m w in k a w'.

Notation "x <- m ;; k" := (bind m (fun x => k))
  (at level 61, m at next level, right associativity).

Definition log (e : event) (w : world) : world :=
  {| utc_clock := utc_clock w;
     local_utcoffset := local_utcoffset w;
     latency := latency w;
     purpleair := purpleair w;
     trace := trace w ++ [e] |}.

Definition elapse (d : Z) (w : world) : world :=
  {| utc_clock := utc_clock w + d;
     local_utcoffset := local_utcoffset w;
     latency := latency w;
     purpleair := purpleair w;
     trace := trace w |}.

(** [dt.datetime.now(pytz.timezone(tz))] *)
Definition datetime_now_tz (tz : string) : M datetime :=
  fun w => ({| instant := utc_clock w; tzname := tz |},
            log (ClockRead (Some tz)) w).

(** [dt.datetime.now()]: the host's wall clock, without a zone. *)
Definition datetime_now : M Z :=
  fun w => (utc_clock w + local_utcoffset w, log (ClockRead None) w).

(** [requests.get(url, headers={'X-API-Key': key}).json()['data']] *)
Definition requests_get (url key : string) : M (list api_row) :=
  fun w => (purpleair w url key, elapse (latency w) (log (HttpGet url key) w)).

(** *** getSensorsData *)

Definition getSensorsData (query api_read_key : string) : M (list api_row) :=
  let url := ("https://api.purpleair.com/v1/sensors?" ++ query)%string in
  requests_get url api_read_key.

(** *** Get_spikes_df, step by step *)

Definition str (z : Z) : string := NilZero.string_of_int (Z.to_int z).

Definition fields : list string :=
  ["pm2.5_10minute"; "channel_flags"; "channel_state"; "last_seen"]%string.

Definition query_string (sensor_ids : list Z) : string :=
  let fields_string := ("fields=" ++ String.concat "%2C" fields)%string in
  let sensor_string :=
    ("show_only=" ++ String.concat "%2C" (map str sensor_ids))%string in
  String.concat "&" [fields_string; sensor_string].

(** [pd.DataFrame(data, columns = col_names)] followed by the correction of
    [last_seen].  pandas refuses an empty [data] with a [ValueError]: the
    table is that of a reply of at least one row. *)
Definition correct_last_seen (a : api_row) : sensors_row :=
  {| sensor_index := a_sensor_index a;
     pm2_5_10minute := a_pm2_5_10minute a;
     channel_flags := a_channel_flags a;
     channel_state := a_channel_state a;
     last_seen :=
       option_map (fun s => to_datetime_s s - Timedelta_hours 5)
                  (a_last_seen a) |}.

Definition sensors_df (data : list api_row) : list sensors_row :=
  map correct_last_seen data.

(** The mask [flags]; [now] is the value of [dt.datetime.now()]. *)
Definition flags (now : Z) (r : sensors_row) : bool :=
  ne_Z (channel_flags r) 0
  || eq_Z (channel_state r) 0
  || lt_Z (last_seen r) (now - timedelta_minutes 60).

(** [rename(columns = {'pm2.5_10minute':'pm25'})] *)
Definition rename_pm25 (r : sensors_row) : clean_row :=
  {| c_sensor_index := sensor_index r;
     pm25 := pm2_5_10minute r;
     c_channel_flags := channel_flags r;
     c_channel_state := channel_state r;
     c_last_seen := last_seen r |}.

(** [dropna()] keeps the rows without a null cell. *)
Definition no_null (c : clean_row) : bool :=
  notna (pm25 c) && notna (c_channel_flags c)
  && notna (c_channel_state c) && notna (c_last_seen c).

Definition clean_df (now : Z) (df : list sensors_row) : list clean_row :=
  let clean_df := filter (fun r => negb (flags now r)) df in
  let clean_df := map rename_pm25 clean_df in
  let clean_df := filter (fun c => lt_Q (pm25 c) 1000) clean_df in
  let clean_df := filter no_null clean_df in
  clean_df.

(** [[['sensor_index', 'pm25']]] *)
Definition spike_of (c : clean_row) : spike_row :=
  {| s_sensor_index := c_sensor_index c; s_pm25 := pm25 c |}.

Definition spikes_df (spike_threshold : Q) (clean : list clean_row)
  : list spike_row :=
  map spike_of (filter (fun c => ge_Q (pm25 c) spike_threshold) clean).

(** [Series.isin] *)
Definition isin (x : Z) (l : list Z) : bool := existsb (Z.eqb x) l.

Definition flagged_df (df : list sensors_row) (clean : list clean_row)
  : list sensors_row :=
  filter (fun r => negb (isin (sensor_index r) (map c_sensor_index clean))) df.

Definition flagged_sensor_ids (df : list sensors_row) (clean : list clean_row)
  : list Z :=
  map sensor_index (flagged_df df clean).

(** *** Get_spikes_df *)

Definition Get_spikes_df (purpleAir_api : string) (sensor_ids : list Z)
    (spike_threshold : Q) : M (list spike_row * datetime * list Z) :=
  runtime <- datetime_now_tz "America/Chicago" ;;
  data <- getSensorsData (query_string sensor_ids) purpleAir_api ;;
  let sensors := sensors_df data in
  now <- datetime_now ;;
  let clean := clean_df now sensors in
  ret (spikes_df spike_threshold clean, runtime,
       flagged_sensor_ids sensors clean).

(** The rows of [sensors_df] that the mask [flags] marks. *)
Definition rule_flagged (now : Z) (df : list sensors_row) : list sensors_row :=
  filter (flags now) df.

(** The rows that pass the mask but are removed by [pm25 < 1000] or by
    [dropna()]. *)
Definition unusable (r : sensors_row) : bool :=
  negb (lt_Q (pm2_5_10minute r) 1000 && no_null (rename_pm25 r)).

Definition dropped_unusable (now : Z) (df : list sensors_row)
  : list sensors_row :=
  filter (fun r => negb (flags now r) && unusable r) df.

(** The three selections of [clean_df] taken together: the mask, then
    [pm25 < 1000], then [dropna()]. *)
Definition keeps (now : Z) (r : sensors_row) : bool :=
  negb (flags now r) && lt_Q (pm2_5_10minute r) 1000
  && no_null (rename_pm25 r).

End GetSpikes.

(** ** Send_Alerts.py *)

Module SendAlerts.

(** *** Python: values, exceptions, name lookup *)

Inductive pyval :=
| PyInt (z : Z)
| PyObject (what : string).   (* a module, function, connection, dict ... *)

Inductive exn :=
| NameError (name : string)
| ProgrammingError            (* psycopg2: the value has no SQL form *)
| DataError                   (* psycopg2: the command fails on its data *)
| IndexError
| TypeError.

Inductive result (A : Type) :=
| Ok (a : A)
| Raise (e : exn).
Arguments Ok {A} a.
Arguments Raise {A} e.

Definition scope := list (string * pyval).

Fixpoint lookup (x : string) (s : scope) : option pyval :=
  match s with
  | [] => None
  | (y, v) :: s' => if String.eqb x y then Some v else lookup x s'
  end.

(** The names bound at the top level of Send_Alerts.py. *)
Definition module_globals : scope :=
  map (fun x => (x, PyObject x))
    ["os"; "sys"; "load_dotenv"; "requests"; "dt"; "pytz"; "psycopg2"; "sql";
     "np"; "gpd"; "pd"; "twilio_functions"; "creds"; "pg_connection_dict";
     "Users_nearby_sensor"; "Users_to_message_new_alert"; "initialize_report";
     "send_all_messages"; "get_phone_numbers"; "update_user_table"]%string.

(** *** SQL: three-valued tests and aggregates *)

Definition sql_and (a b : option bool) : option bool :=
  match a, b with
  | Some false, _ | _, Some false => Some false
  | Some true, Some true => Some true
  | _, _ => None
  end.

(** A [WHERE] clause keeps the rows on which it is true. *)
Definition holds (c : option bool) : bool :=
  match c with Some true => true | _ => false end.

(** [x = ANY (array)] for a non-null [x]. *)
Definition eq_any (x : Z) (array : option (list Z)) : option bool :=
  option_map (existsb (Z.eqb x)) array.

(** [array = '{}'] *)
Definition eq_empty (array : option (list Z)) : option bool :=
  option_map (fun l => match l with [] => true | _ => false end) array.

(** [MIN] and [MAX] skip nulls and are null over no value. *)
Definition sql_min (l : list (option Z)) : option Z :=
  fold_right (fun x acc =>
                match x, acc with
                | Some v, Some m => Some (Z.min v m)
                | Some v, None => Some v
                | None, _ => acc
                end) None l.

Definition Qmax (a b : Q) : Q := if Qle_bool a b then b else a.

Definition sql_max (l : list (option Q)) : option Q :=
  fold_right (fun x acc =>
                match x, acc with
                | Some v, Some m => Some (Qmax v m)
                | Some v, None => Some v
                | None, _ => acc
                end) None l.

(** [ARRAY_AGG] over arrays stacks them: it is null over no row, and it
    fails unless the arrays are non-empty and of one length. *)
Definition array_agg_arrays (arrays : list (list Z))
  : option (option (list (list Z))) :=
  match arrays with
  | [] => Some None
  | first :: _ =>
      if forallb (fun a => negb (Nat.eqb (List.length a) 0)
                           && Nat.eqb (List.length a) (List.length first))
                 arrays
      then Some (Some arrays)
      else None
  end.

(** [ARRAY_AGG(DISTINCT v)]: each value once, in ascending order. *)
Fixpoint insert_distinct (x : Z) (l : list Z) : list Z :=
  match l with
  | [] => [x]
  | y :: l' =>
      if x <? y then x :: l
      else if x =? y then l
      else y :: insert_distinct x l'
  end.

Definition array_agg_distinct (values : list Z) : option (list Z) :=
  match values with
  | [] => None
  | _ => Some (fold_right insert_distinct [] values)
  end.

(** [DATE_PART] on an interval of [d] microseconds. *)
Definition usec_per_minute : Z := 60 * 1000000.
Definition usec_per_hour : Z := 60 * usec_per_minute.
Definition usec_per_day : Z := 24 * usec_per_hour.

Definition date_part_day (d : Z) : Z := Z.quot d usec_per_day.
Definition date_part_hour (d : Z) : Z :=
  Z.quot (Z.rem d usec_per_day) usec_per_hour.
Definition date_part_minute (d : Z) : Z :=
  Z.quot (Z.rem d usec_per_hour) usec_per_minute.

Section Store.

(** PostGIS is outside the repository: geometries, reprojection and the
    planar distance between two geometries of one reference system. *)
Context {Geometry : Type}.
Variable ST_Transform : Geometry -> Z -> Geometry.
Variable ST_Distance : Geometry -> Geometry -> Q.

(** [ST_DWithin(a, b, d)]: the distance between [a] and [b] is at most [d]. *)
Definition ST_DWithin (a b : option Geometry) (d : Q) : option bool :=
  match a, b with
  | Some g, Some h => Some (Qle_bool (ST_Distance g h) d)
  | _, _ => None
  end.

(** [twilio_functions.send_texts] is not part of these sources: it hands the
    messages to the SMS provider and returns the times of delivery. *)
Variable send_texts : list Z -> list string -> list Z.

(** *** Tables *)

(** "PurpleAir Stations" *)
Record station := {
  st_sensor_index : Z;
  st_geometry : option Geometry
}.

(** "Sign Up Information" *)
Record signup := {
  record_id : Z;
  subscribed : option bool;
  geometry : option Geometry;
  active_alerts : option (list Z);
  cached_alerts : option (list Z);
  messages_sent : option Z;
  last_messaged : option Z
}.

(** "Archived Alerts Acute PurpleAir" *)
Record alert := {
  alert_index : Z;
  start_time : option Z;
  max_reading : option Q;
  sensor_indices : list Z
}.

(** "Reports Archive" *)
Record report := {
  report_id : Z;
  r_start_time : option Z;
  duration_minutes : option Z;
  r_max_reading : option Q;
  r_sensor_indices : option (list Z);
  r_alert_indices : option (list Z)
}.

Inductive line :=
| Text (s : string)
| Values (record_ids times messages_sent_new : list Z).

Record state := {
  stations : list station;
  signups : list signup;
  archived_alerts : list alert;
  reports : list report;
  current_timestamp : Z;  (* CURRENT_TIMESTAMP AT TIME ZONE 'America/Chicago' *)
  stdout : list line      (* oldest first *)
}.

(** *** Computations that read and write the store and may raise *)

Definition P (A : Type) : Type := state -> result A * state.

Definition ret {A} (a : A) : P A := fun s => (Ok a, s).

Definition raise {A} (e : exn) : P A := fun s => (Raise e, s).

Definition bind {A B} (m : P A) (k : A -> P B) : P B :=
  fun s => match m s with
           | (Ok a, s') => k a s'
           | (Raise e, s') => (Raise e, s')
           end.

Notation "x <- m ;; k" := (bind m (fun x => k))
  (at level 61, m at next level, right associativity).
Notation "m ;;; k" := (bind m (fun _ => k))
  (at level 61, right associativity).

(** [cur.execute] of a [SELECT], then [cur.fetchall()]. *)
Definition fetchall {A} (q : state -> list A) : P (list A) :=
  fun s => (Ok (q s), s).

Definition print (l : line) : P unit :=
  fun s => (Ok tt,
            {| stations := stations s;
               signups := signups s;
               archived_alerts := archived_alerts s;
               reports := reports s;
               current_timestamp := current_timestamp s;
               stdout := stdout s ++ [l] |}).

(** [cur.execute] of an [INSERT INTO "Reports Archive"], then
    [conn.commit()]. *)
Definition insert_reports (rows : state -> result (list report)) : P unit :=
  fun s => match rows s with
           | Ok added =>
               (Ok tt,
                {| stations := stations s;
                   signups := signups s;
                   archived_alerts := archived_alerts s;
                   reports := reports s ++ added;
                   current_timestamp := current_timestamp s;
                   stdout := stdout s |})
           | Raise e => (Raise e, s)
           end.

(** Reading a name: the function's own variables, then the module's (the
    builtins come last and hold none of the names read here). *)
Definition load_name (locals : scope) (x : string) : P pyval :=
  match lookup x locals with
  | Some v => ret v
  | None => match lookup x module_globals with
            | Some v => ret v
            | None => raise (NameError x)
            end
  end.

(** [sql.Literal(v)] once the command is rendered. *)
Definition adapt (v : pyval) : P Z :=
  match v with
  | PyInt z => ret z
  | PyObject _ => raise ProgrammingError
  end.

(** *** get_sensor_ids (Get_spikes_df.py)

    [SELECT sensor_index FROM "PurpleAir Stations"], unpacked into a
    Series. *)


(** *** Users_nearby_sensor *)

Definition Users_nearby_sensor (sensor_index : Z) (distance : Q)
  : P (list Z) :=
  record_ids <- fetchall (fun s =>
    let sensor :=
      filter (fun st => st_sensor_index st =? sensor_index) (stations s) in
    flat_map (fun u =>
      flat_map (fun st =>
        if holds (sql_and
                    (option_map (Bool.eqb true) (subscribed u))
                    (ST_DWithin
                       (option_map (fun g => ST_Transform g 26915) (geometry u))
                       (option_map (fun g => ST_Transform g 26915)
                                   (st_geometry st))
                       distance))
        then [record_id u] else [])
        sensor)
      (signups s)) ;;
  ret record_ids.

(** *** Users_to_message_new_alert *)

Definition Users_to_message_new_alert (record_ids : list Z) : P (list Z) :=
  record_ids_to_text <- fetchall (fun s =>
    map record_id
      (filter (fun u =>
                 holds (sql_and
                          (sql_and (eq_empty (active_alerts u))
                                   (eq_empty (cached_alerts u)))
                          (eq_any (record_id u) (Some record_ids))))
              (signups s))) ;;
  ret record_ids_to_text.

(** *** initialize_report *)

(** The rows that the [INSERT ... SELECT] of [initialize_report] adds, for
    the literals [rid] and [pid].  [ARRAY_AGG(p.sensor_indices)] stacks the
    arrays of the alerts and fails when they differ in length; [unnest] then
    yields their elements and [ARRAY_AGG(DISTINCT ...)] each of them once, in
    ascending order. *)
Definition report_rows (rid pid : Z) (s : state) : result (list report) :=
  let alert_cache :=
    map cached_alerts (filter (fun u => record_id u =? rid) (signups s)) in
  let joined :=
    flat_map (fun p =>
      flat_map (fun c =>
        if holds (eq_any (alert_index p) c) then [p] else [])
        alert_cache)
      (archived_alerts s) in
  let a_start_time := sql_min (map start_time joined) in
  let a_time_diff := option_map (fun t => current_timestamp s - t) a_start_time in
  let a_max_reading := sql_max (map max_reading joined) in
  match array_agg_arrays (map sensor_indices joined) with
  | None => Raise DataError
  | Some a_sensor_indices =>
      let n_sensor_indices :=
        match a_sensor_indices with
        | Some arrays => array_agg_distinct (List.concat arrays)
        | None => None
        end in
      Ok (map (fun c =>
                 {| report_id := pid;
                    r_start_time := a_start_time;
                    duration_minutes :=
                      option_map (fun d =>
                        (date_part_day d * 24 + date_part_hour d) * 60
                        + date_part_minute d) a_time_diff;
                    r_max_reading := a_max_reading;
                    r_sensor_indices := n_sensor_indices;
                    r_alert_indices := c |})
              alert_cache)
  end.

(** The parameters are [record_id], [reports_for_day] and
    [pg_connection_dict]; the body reads [record_id] and [report_id].  The
    other functions of the file read their own parameters and variables only,
    so that their names are resolved on sight; here the lookup is spelled
    out. *)
Definition initialize_report (record_id reports_for_day : Z)
  : P (option Z * option Q) :=
  let locals :=
    [("record_id", PyInt record_id);
     ("reports_for_day", PyInt reports_for_day);
     ("pg_connection_dict", PyObject "pg_connection_dict");
     ("conn", PyObject "conn");
     ("cur", PyObject "cur")]%string in
  v_record <- load_name locals "record_id" ;;
  v_report <- load_name locals "report_id" ;;
  rid <- adapt v_record ;;
  pid <- adapt v_report ;;
  insert_reports (report_rows rid pid) ;;;
  v_report <- load_name locals "report_id" ;;
  pid <- adapt v_report ;;
  rows <- fetchall (fun s =>
    map (fun r => (duration_minutes r, r_max_reading r))
        (filter (fun r => report_id r =? pid) (reports s))) ;;
  match rows with
  | row :: _ => ret row
  | [] => raise IndexError
  end.

(** *** get_phone_numbers *)

Definition get_phone_numbers (users : list Z) : P (list Z) :=
  print (Text "getting numbers!") ;;;
  ret (map (fun record_id => record_id * 100) users).

(** *** update_user_table *)

(** [[v+1 for v in messages_sent_list]]: adding to [None] is a [TypeError]. *)
Fixpoint increment_all (l : list (option Z)) : P (list Z) :=
  match l with
  | [] => ret []
  | Some v :: l' => rest <- increment_all l' ;; ret (v + 1 :: rest)
  | None :: _ => raise TypeError
  end.

Definition update_user_table (record_ids times : list Z) : P unit :=
  print (Text "updating Sign Up Information") ;;;
  messages_sent_list <- fetchall (fun s =>
    map messages_sent
      (filter (fun u => holds (eq_any (record_id u) (Some record_ids)))
              (signups s))) ;;
  messages_sent_new <- increment_all messages_sent_list ;;
  print (Values record_ids times messages_sent_new) ;;;
  print (Text "fancy SQL to update the sign up table still pending") ;;;
  ret tt.

(** *** send_all_messages *)

Definition send_all_messages (record_ids : list Z) (messages : list string)
  : P unit :=
  numbers <- get_phone_numbers record_ids ;;
  let times := send_texts numbers messages in
  update_user_table record_ids times ;;;
  ret tt.

End Store.

End SendAlerts.

(** ** Concrete data used in the examples *)

Module Scenario.

Import GetSpikes SendAlerts.

(** A reply of the provider: a healthy sensor, a downgraded one, one with an
    absurd reading, one without a reading, one with a negative reading. *)
Definition seen : Z := 1700000000.

Definition reply : list api_row :=
  [ {| a_sensor_index := 1; a_pm2_5_10minute := Some (40 # 1)%Q;
       a_channel_flags := Some 0; a_channel_state := Some 3;
       a_last_seen := Some seen |};
    {| a_sensor_index := 2; a_pm2_5_10minute := Some (5 # 1)%Q;
       a_channel_flags := Some 1; a_channel_state := Some 3;
       a_last_seen := Some seen |};
    {| a_sensor_index := 3; a_pm2_5_10minute := Some (1500 # 1)%Q;
       a_channel_flags := Some 0; a_channel_state := Some 3;
       a_last_seen := Some seen |};
    {| a_sensor_index := 4; a_pm2_5_10minute := None;
       a_channel_flags := Some 0; a_channel_state := Some 3;
       a_last_seen := Some seen |};
    {| a_sensor_index := 5; a_pm2_5_10minute := Some (-1 # 1)%Q;
       a_channel_flags := Some 0; a_channel_state := Some 3;
       a_last_seen := Some seen |} ].

Definition world0 : world :=
  {| utc_clock := microseconds seen;
     local_utcoffset := - Timedelta_hours 6;
     latency := 250000;
     purpleair := fun _ _ => reply;
     trace := [] |}.

(** The same reply received on a host that keeps UTC. *)
Definition world_utc : world :=
  {| utc_clock := microseconds seen;
     local_utcoffset := 0;
     latency := 250000;
     purpleair := fun _ _ => reply;
     trace := [] |}.

(** The host's clock when the mask is computed in [world0]. *)
Definition now0 : Z := microseconds seen + 250000 - Timedelta_hours 6.

Definition row (id : Z) (pm : option Q) : sensors_row :=
  {| sensor_index := id; pm2_5_10minute := pm;
     channel_flags := Some 0; channel_state := Some 3;
     last_seen := Some (microseconds seen - Timedelta_hours 5) |}.

(** Users on a line: a geometry is a position in metres, already in the
    projected system. *)
Definition on_line_transform (g : Z) (srid : Z) : Z := g.
Definition on_line_distance (g h : Z) : Q := inject_Z (Z.abs (g - h)).
Definition delivered (numbers : list Z) (messages : list string) : list Z :=
  map (fun _ => microseconds (seen + 60)) numbers.

Definition user (id : Z) (sub : bool) (at_ : Z) (active cached : list Z)
    (sent : Z) : @signup Z :=
  {| record_id := id; subscribed := Some sub; geometry := Some at_;
     active_alerts := Some active; cached_alerts := Some cached;
     messages_sent := Some sent; last_messaged := None |}.

Definition store0 : @state Z :=
  {| stations := [ {| st_sensor_index := 1; st_geometry := Some 0 |} ];
     signups := [ user 11 true 50 [] [] 0;
                  user 12 true 500 [7] [] 2;
                  user 13 false 10 [] [8; 9] 3 ];
     archived_alerts :=
       [ {| alert_index := 8; start_time := Some (microseconds seen);
            max_reading := Some (60 # 1)%Q; sensor_indices := [1] |};
         {| alert_index := 9;
            start_time := Some (microseconds (seen - 600));
            max_reading := Some (90 # 1)%Q; sensor_indices := [1; 2] |} ];
     reports := [];
     current_timestamp := microseconds (seen + 1500);
     stdout := [] |}.

(** The same store with alerts whose lists of sensors are of one length. *)
Definition store1 : @state Z :=
  {| stations := stations store0;
     signups := signups store0;
     archived_alerts :=
       [ {| alert_index := 8; start_time := Some (microseconds seen);
            max_reading := Some (60 # 1)%Q; sensor_indices := [3; 1] |};
         {| alert_index := 9;
            start_time := Some (microseconds (seen - 600));
            max_reading := Some (90 # 1)%Q; sensor_indices := [1; 2] |} ];
     reports := [];
     current_timestamp := microseconds (seen + 1500);
     stdout := [] |}.

End Scenario.

(** * Properties of Get_spikes_df.py *)

Section GetSpikesFacts.

Import Cell GetSpikes.

(** ** Comparisons *)

Lemma Qlt_bool_iff (a b : Q) : Qlt_bool a b = true <-> (a < b)%Q.
Proof.
  unfold Qlt_bool. rewrite Qlt_alt.
  destruct (a ?= b)%Q; split; congruence.
Qed.

Lemma Qge_bool_iff (a b : Q) : Qge_bool a b = true <-> (b <= a)%Q.
Proof.
  unfold Qge_bool. split.
  - intros H. apply Qnot_lt_le. rewrite Qlt_alt.
    destruct (a ?= b)%Q; congruence.
  - intros H. destruct (a ?= b)%Q eqn:E; trivial.
    apply Qlt_alt in E. elim (Qlt_not_le _ _ E H).
Qed.

Lemma Qge_bool_false_iff (a b : Q) : Qge_bool a b = false <-> (a < b)%Q.
Proof.
  rewrite <- Qlt_bool_iff. unfold Qge_bool, Qlt_bool.
  destruct (a ?= b)%Q; split; congruence.
Qed.

Lemma isin_In (x : Z) (l : list Z) : isin x l = true <-> In x l.
Proof.
  unfold isin. rewrite existsb_exists. split.
  - intros (y & Hy & E). apply Z.eqb_eq in E. now subst.
  - intros H. exists x. split; [assumption | apply Z.eqb_refl].
Qed.

(** ** The mask and the clean table *)

Lemma flags_false_iff (now : Z) (r : sensors_row) :
  flags now r = false <->
  channel_flags r = Some 0
  /\ channel_state r <> Some 0
  /\ (forall t, last_seen r = Some t -> now - timedelta_minutes 60 <= t).
Proof.
  unfold flags, ne_Z, eq_Z, lt_Z.
  rewrite !orb_false_iff.
  destruct (channel_flags r) as [f|], (channel_state r) as [s|],
           (last_seen r) as [t|];
    rewrite ?negb_false_iff, ?Z.eqb_eq, ?Z.eqb_neq, ?Z.ltb_ge;
    split; intros H; repeat split;
    try solve [ intuition congruence
              | intuition discriminate
              | destruct H as [[H1 H2] H3]; intros ? [= <-]; assumption
              | destruct H as [[H1 H2] H3]; congruence
              | destruct H as (H1 & H2 & H3); congruence
              | destruct H as (H1 & H2 & H3); apply H3; reflexivity ].
Qed.

Lemma rename_pm25_inj (r r' : sensors_row) :
  rename_pm25 r = rename_pm25 r' -> r = r'.
Proof.
  destruct r, r'. unfold rename_pm25. simpl. congruence.
Qed.

Lemma In_clean_df (now : Z) (df : list sensors_row) (c : clean_row) :
  In c (clean_df now df) <->
  exists r, In r df /\ c = rename_pm25 r /\ flags now r = false
            /\ lt_Q (pm25 c) 1000 = true /\ no_null c = true.
Proof.
  unfold clean_df. rewrite !filter_In, in_map_iff. split.
  - intros [[(r & <- & Hr) Hlt] Hnn]. apply filter_In in Hr.
    destruct Hr as [Hr Hf]. apply negb_true_iff in Hf.
    exists r. auto.
  - intros (r & Hr & -> & Hf & Hlt & Hnn). repeat split; trivial.
    exists r. split; trivial. apply filter_In. split; trivial.
    now apply negb_true_iff.
Qed.

Lemma In_clean_df_rename (now : Z) (df : list sensors_row) (r : sensors_row) :
  In (rename_pm25 r) (clean_df now df) <->
  In r df /\ flags now r = false
  /\ lt_Q (pm2_5_10minute r) 1000 = true /\ no_null (rename_pm25 r) = true.
Proof.
  rewrite In_clean_df. split.
  - intros (r' & Hr & E & H). apply rename_pm25_inj in E. subst r'.
    split; trivial.
  - intros (Hr & H). exists r. auto.
Qed.

Lemma no_null_iff (r : sensors_row) :
  no_null (rename_pm25 r) = true <->
  exists pm f s t,
    pm2_5_10minute r = Some pm /\ channel_flags r = Some f
    /\ channel_state r = Some s /\ last_seen r = Some t.
Proof.
  unfold no_null, notna. simpl.
  destruct (pm2_5_10minute r) as [pm|], (channel_flags r) as [f|],
           (channel_state r) as [s|], (last_seen r) as [t|]; simpl;
    split; intros H; try discriminate;
    try (destruct H as (? & ? & ? & ? & ? & ? & ? & ?); discriminate);
    trivial.
  exists pm, f, s, t. auto.
Qed.

(** C1.  A row of the fetched table is in the clean table exactly when its
    channel flags are Normal (0), its channel state is not NoPM (0), it was
    last seen no earlier than sixty minutes before now, its reading is less
    than 1000, and none of its cells is null. *)
Theorem clean_df_iff (now : Z) (df : list sensors_row) (r : sensors_row) :
  In r df ->
  (In (rename_pm25 r) (clean_df now df) <->
   exists pm st t,
     channel_flags r = Some 0
     /\ channel_state r = Some st /\ st <> 0
     /\ last_seen r = Some t /\ now - timedelta_minutes 60 <= t
     /\ pm2_5_10minute r = Some pm /\ (pm < 1000)%Q).
Proof.
  intros Hr. rewrite In_clean_df_rename, flags_false_iff, no_null_iff. split.
  - intros (_ & (Hf & Hs & Ht) & Hlt & pm & f & s & t & Epm & Ef & Es & Et).
    exists pm, s, t. rewrite Epm in Hlt. simpl in Hlt.
    apply Qlt_bool_iff in Hlt.
    repeat split; trivial; try congruence. now apply Ht.
  - intros (pm & s & t & Ef & Es & Hs & Et & Ht & Epm & Hlt).
    repeat split; trivial.
    + congruence.
    + intros t' E. congruence.
    + rewrite Epm. simpl. now apply Qlt_bool_iff.
    + exists pm, 0, s, t. auto.
Qed.

(** ** Rows that are set aside *)

Lemma In_flagged_sensor_ids (df : list sensors_row) (clean : list clean_row)
    (id : Z) :
  In id (flagged_sensor_ids df clean) <->
  In id (map sensor_index df) /\ ~ In id (map c_sensor_index clean).
Proof.
  unfold flagged_sensor_ids, flagged_df. rewrite !in_map_iff. split.
  - intros (r & <- & Hr). apply filter_In in Hr. destruct Hr as [Hr Hn].
    split; [now exists r |].
    intros Hc. apply in_map_iff, isin_In in Hc.
    rewrite Hc in Hn. discriminate.
  - intros [(r & <- & Hr) Hn]. exists r. split; trivial.
    apply filter_In. split; trivial.
    destruct (isin _ _) eqn:E; trivial.
    apply isin_In in E. elim Hn. now apply in_map_iff.
Qed.

Lemma clean_ids_subset (now : Z) (df : list sensors_row) (id : Z) :
  In id (map c_sensor_index (clean_df now df)) -> In id (map sensor_index df).
Proof.
  rewrite !in_map_iff. intros (c & <- & Hc).
  apply In_clean_df in Hc. destruct Hc as (r & Hr & -> & _).
  now exists r.
Qed.

Lemma NoDup_ids_clean (now : Z) (df : list sensors_row) (r : sensors_row) :
  NoDup (map sensor_index df) -> In r df ->
  In (sensor_index r) (map c_sensor_index (clean_df now df)) ->
  In (rename_pm25 r) (clean_df now df).
Proof.
  intros Hnd Hr Hid. apply in_map_iff in Hid.
  destruct Hid as (c & Ec & Hc).
  destruct (proj1 (In_clean_df _ _ _) Hc) as (r' & Hr' & -> & _).
  simpl in Ec.
  assert (r' = r) as <-; [| assumption].
  clear Hc. induction df as [|x df IH]; [contradiction |].
  simpl in Hnd. inversion Hnd as [|? ? Hx Hnd']; subst.
  destruct Hr as [-> | Hr], Hr' as [-> | Hr']; trivial.
  - elim Hx. rewrite <- Ec. now apply in_map.
  - elim Hx. rewrite Ec. now apply in_map.
  - now apply IH.
Qed.

(** C2, as amended.  A row whose reading is 1000 or more, or which has a null
    cell, is not in the clean table; its sensor is listed among the flagged
    sensors exactly when no clean row carries the same [sensor_index], hence
    always when the sensors of the table are distinct. *)
Theorem unusable_row_is_flagged (now : Z) (df : list sensors_row)
    (r : sensors_row) :
  In r df ->
  (exists pm, pm2_5_10minute r = Some pm /\ (1000 <= pm)%Q)
  \/ no_null (rename_pm25 r) = false ->
  ~ In (rename_pm25 r) (clean_df now df)
  /\ (In (sensor_index r) (flagged_sensor_ids df (clean_df now df)) <->
      ~ In (sensor_index r) (map c_sensor_index (clean_df now df)))
  /\ (NoDup (map sensor_index df) ->
      In (sensor_index r) (flagged_sensor_ids df (clean_df now df))).
Proof.
  intros Hr Hbad.
  assert (Hnot : ~ In (rename_pm25 r) (clean_df now df)).
  { rewrite In_clean_df_rename. intros (_ & _ & Hlt & Hnn).
    destruct Hbad as [(pm & Epm & Hpm) | Hnull]; [| congruence].
    rewrite Epm in Hlt. simpl in Hlt. apply Qlt_bool_iff in Hlt.
    elim (Qlt_not_le _ _ Hlt Hpm). }
  split; [assumption |]. split.
  - rewrite In_flagged_sensor_ids. split; [tauto |].
    intros H. split; [now apply in_map | assumption].
  - intros Hnd. apply In_flagged_sensor_ids.
    split; [now apply in_map |].
    intros Hid. apply Hnot. now apply NoDup_ids_clean.
Qed.

(** C8.  Every row of the fetched table is marked by the mask, or is clean,
    or was dropped as unusable, and these three come from the table; every
    sensor of the table is clean or is returned as flagged; and no sensor is
    both clean and returned as flagged. *)
Theorem clean_flagged_cover (now : Z) (df : list sensors_row) :
  let clean := clean_df now df in
  (forall r, In r df <->
             In r (rule_flagged now df)
             \/ In (rename_pm25 r) clean
             \/ In r (dropped_unusable now df))
  /\ (forall id, In id (map sensor_index df) <->
                 In id (map c_sensor_index clean)
                 \/ In id (flagged_sensor_ids df clean))
  /\ (forall id, ~ (In id (map c_sensor_index clean)
                    /\ In id (flagged_sensor_ids df clean))).
Proof.
  intros clean. subst clean. repeat split.
  - intros Hr. unfold rule_flagged, dropped_unusable.
    rewrite In_clean_df_rename, !filter_In, andb_true_iff.
    unfold unusable.
    destruct (flags now r); [now left | right].
    destruct (lt_Q (pm2_5_10minute r) 1000), (no_null (rename_pm25 r));
      simpl; auto.
  - unfold rule_flagged, dropped_unusable.
    rewrite In_clean_df_rename, !filter_In. tauto.
  - intros Hid.
    destruct (in_dec Z.eq_dec id (map c_sensor_index (clean_df now df)))
      as [Hc | Hc]; [now left | right].
    now apply In_flagged_sensor_ids.
  - intros [Hc | Hf].
    + now apply clean_ids_subset in Hc.
    + now apply In_flagged_sensor_ids in Hf.
  - intros id [Hc Hf]. apply In_flagged_sensor_ids in Hf. tauto.
Qed.

(** ** Spikes *)

Lemma filter_all {A} (f : A -> bool) (l : list A) :
  (forall x, In x l -> f x = true) -> filter f l = l.
Proof.
  induction l as [|a l IH]; simpl; intros H; trivial.
  rewrite (H a (or_introl eq_refl)). f_equal. apply IH. auto.
Qed.

Lemma filter_none {A} (f : A -> bool) (l : list A) :
  (forall x, In x l -> f x = false) -> filter f l = [].
Proof.
  induction l as [|a l IH]; simpl; intros H; trivial.
  rewrite (H a (or_introl eq_refl)). apply IH. auto.
Qed.

Lemma clean_reading (now : Z) (df : list sensors_row) (c : clean_row) :
  In c (clean_df now df) -> exists v, pm25 c = Some v /\ (v < 1000)%Q.
Proof.
  intros Hc. apply In_clean_df in Hc.
  destruct Hc as (r & _ & _ & _ & Hlt & _).
  destruct (pm25 c) as [v|]; [| discriminate].
  exists v. split; trivial. now apply Qlt_bool_iff.
Qed.

Lemma In_spikes_df (thr : Q) (clean : list clean_row) (s : spike_row) :
  In s (spikes_df thr clean) <->
  exists c, In c clean /\ s = spike_of c
            /\ exists v, pm25 c = Some v /\ (thr <= v)%Q.
Proof.
  unfold spikes_df. rewrite in_map_iff. split.
  - intros (c & <- & Hc). apply filter_In in Hc. destruct Hc as [Hc Hge].
    exists c. repeat split; trivial.
    destruct (pm25 c) as [v|]; [| discriminate].
    exists v. split; trivial. now apply Qge_bool_iff.
  - intros (c & Hc & -> & v & Ev & Hv). exists c. split; trivial.
    apply filter_In. split; trivial.
    rewrite Ev. simpl. now apply Qge_bool_iff.
Qed.

Lemma ge_Q_iff (x : option Q) (thr : Q) :
  ge_Q x thr = true <-> exists v, x = Some v /\ (thr <= v)%Q.
Proof.
  destruct x as [v|]; simpl.
  - rewrite Qge_bool_iff. split.
    + intros H. now exists v.
    + intros (v' & [= <-] & H). exact H.
  - split; [discriminate | intros (v & E & _); discriminate].
Qed.

(** C6, as amended.  The spikes are the clean rows whose reading is at least
    the threshold, in the order of the clean table and cut down to
    [sensor_index] and [pm25]: going through the clean table from the top and
    keeping the rows that meet the threshold, by whatever test decides it,
    gives the spikes, row for row.  A threshold that no clean reading falls
    below (0, when no clean reading is negative) returns every clean row; a
    threshold above every clean reading returns no row; an empty clean table
    returns no row. *)
Theorem spikes_df_spec (now : Z) (df : list sensors_row) (thr : Q) :
  let clean := clean_df now df in
  (forall s, In s (spikes_df thr clean) <->
             exists c, In c clean /\ s = spike_of c
                       /\ exists v, pm25 c = Some v /\ (thr <= v)%Q)
  /\ ((forall c v, In c clean -> pm25 c = Some v -> (0 <= v)%Q) ->
      spikes_df 0 clean = map spike_of clean)
  /\ ((forall c v, In c clean -> pm25 c = Some v -> (thr <= v)%Q) ->
      spikes_df thr clean = map spike_of clean)
  /\ ((forall c v, In c clean -> pm25 c = Some v -> (v < thr)%Q) ->
      spikes_df thr clean = [])
  /\ (clean = [] -> spikes_df thr clean = [])
  /\ (forall keep : clean_row -> bool,
        (forall c, In c clean ->
                   (keep c = true <->
                    exists v, pm25 c = Some v /\ (thr <= v)%Q)) ->
        spikes_df thr clean = map spike_of (filter keep clean)).
Proof.
  intros clean.
  assert (Hall : forall t,
             (forall c v, In c clean -> pm25 c = Some v -> (t <= v)%Q) ->
             spikes_df t clean = map spike_of clean).
  { intros t H. unfold spikes_df. rewrite filter_all; trivial.
    intros c Hc. destruct (clean_reading _ _ _ Hc) as (v & Ev & _).
    rewrite Ev. simpl. apply Qge_bool_iff. eauto. }
  split; [intros s; apply In_spikes_df |].
  split; [apply Hall |]. split; [apply Hall |]. split.
  - intros H. unfold spikes_df. rewrite filter_none; trivial.
    intros c Hc. destruct (clean_reading _ _ _ Hc) as (v & Ev & _).
    rewrite Ev. simpl. apply Qge_bool_false_iff. eauto.
  - split; [intros ->; reflexivity |].
    intros keep Hkeep. unfold spikes_df. f_equal.
    apply filter_ext_in. intros c Hc. specialize (Hkeep c Hc).
    rewrite <- ge_Q_iff in Hkeep.
    destruct (ge_Q (pm25 c) thr), (keep c); trivial.
    + symmetry. now apply Hkeep.
    + now apply Hkeep.
Qed.

(** ** The whole function *)

Lemma Get_spikes_df_run (api : string) (ids : list Z) (thr : Q) (w : world) :
  let url :=
    ("https://api.purpleair.com/v1/sensors?" ++ query_string ids)%string in
  let sensors := sensors_df (purpleair w url api) in
  let now := utc_clock w + latency w + local_utcoffset w in
  let clean := clean_df now sensors in
  fst (Get_spikes_df api ids thr w)
  = (spikes_df thr clean,
     {| instant := utc_clock w; tzname := "America/Chicago" |},
     flagged_sensor_ids sensors clean)
  /\ trace (snd (Get_spikes_df api ids thr w))
     = trace w ++ [ClockRead (Some "America/Chicago"%string);
                   HttpGet url api;
                   ClockRead None].
Proof.
  simpl. split; [reflexivity |].
  rewrite <- !app_assoc. reflexivity.
Qed.

(** C9.  The runtime that [Get_spikes_df] returns is the clock as it stood on
    entry, read in the zone America/Chicago before the request is sent; and
    each [last_seen] of the fetched table is the provider's value minus five
    hours (null where the provider's is null). *)
Theorem runtime_and_last_seen (api : string) (ids : list Z) (thr : Q)
    (w : world) :
  let run := Get_spikes_df api ids thr w in
  let runtime := snd (fst (fst run)) in
  let url :=
    ("https://api.purpleair.com/v1/sensors?" ++ query_string ids)%string in
  let data := purpleair w url api in
  runtime = {| instant := utc_clock w; tzname := "America/Chicago" |}
  /\ trace (snd run)
     = trace w ++ [ClockRead (Some "America/Chicago"%string);
                   HttpGet url api;
                   ClockRead None]
  /\ Forall2 (fun a r =>
                sensor_index r = a_sensor_index a
                /\ match a_last_seen a with
                   | Some s =>
                       exists t, last_seen r = Some t
                                 /\ to_datetime_s s - t = 5 * 3600 * 1000000
                   | None => last_seen r = None
                   end)
             data (sensors_df data).
Proof.
  intros run runtime url data.
  destruct (Get_spikes_df_run api ids thr w) as [E T].
  split; [subst runtime run; now rewrite E |].
  split; [exact T |].
  unfold sensors_df. induction data as [|a data IH]; constructor; trivial.
  split; [reflexivity |]. simpl.
  destruct (a_last_seen a) as [s|]; simpl; trivial.
  eexists. split; [reflexivity |].
  unfold Timedelta_hours, to_datetime_s, microseconds. lia.
Qed.

(** C10.  No sensor is both among the spikes and among the flagged sensors
    that [Get_spikes_df] returns: a spike's sensor has a clean row, a flagged
    sensor has none. *)
Theorem spikes_flagged_disjoint (api : string) (ids : list Z) (thr : Q)
    (w : world) :
  let run := fst (Get_spikes_df api ids thr w) in
  let spikes := fst (fst run) in
  let flagged := snd run in
  let url :=
    ("https://api.purpleair.com/v1/sensors?" ++ query_string ids)%string in
  let clean :=
    clean_df (utc_clock w + latency w + local_utcoffset w)
             (sensors_df (purpleair w url api)) in
  forall id,
    (In id (map s_sensor_index spikes) -> In id (map c_sensor_index clean))
    /\ (In id flagged -> ~ In id (map c_sensor_index clean))
    /\ ~ (In id (map s_sensor_index spikes) /\ In id flagged).
Proof.
  intros run spikes flagged url clean id.
  destruct (Get_spikes_df_run api ids thr w) as [E _].
  subst spikes flagged run. rewrite E. simpl. fold url. fold clean.
  assert (H1 : In id (map s_sensor_index (spikes_df thr clean)) ->
               In id (map c_sensor_index clean)).
  { rewrite !in_map_iff. intros (s & <- & Hs).
    apply In_spikes_df in Hs. destruct Hs as (c & Hc & -> & _).
    now exists c. }
  assert (H2 : In id (flagged_sensor_ids (sensors_df (purpleair w url api))
                                         clean) ->
               ~ In id (map c_sensor_index clean)).
  { intros Hf. now apply In_flagged_sensor_ids in Hf. }
  split; [assumption |]. split; [assumption |].
  intros [Hs Hf]. exact (H2 Hf (H1 Hs)).
Qed.

End GetSpikesFacts.

(** * Properties of Send_Alerts.py *)

Section SendAlertsFacts.

Import SendAlerts.

Context {Geometry : Type}.
Variable ST_Transform : Geometry -> Z -> Geometry.
Variable ST_Distance : Geometry -> Geometry -> Q.
Variable send_texts : list Z -> list string -> list Z.

(** ** Users_nearby_sensor *)

Lemma holds_and (a b : option bool) :
  holds (sql_and a b) = true <-> a = Some true /\ b = Some true.
Proof.
  destruct a as [[|]|], b as [[|]|]; simpl; split; intros H;
    try discriminate; try (destruct H; discriminate); auto.
Qed.

Lemma In_nearby (k : Z) (d : Q) (s : @state Geometry) (id : Z) :
  In id (flat_map (fun u =>
      flat_map (fun st =>
        if holds (sql_and
                    (option_map (Bool.eqb true) (subscribed u))
                    (ST_DWithin ST_Distance
                       (option_map (fun g => ST_Transform g 26915) (geometry u))
                       (option_map (fun g => ST_Transform g 26915)
                                   (st_geometry st))
                       d))
        then [record_id u] else [])
        (filter (fun st => st_sensor_index st =? k) (stations s)))
      (signups s)) <->
  exists u st g h,
    In u (signups s) /\ In st (stations s)
    /\ st_sensor_index st = k /\ record_id u = id
    /\ subscribed u = Some true
    /\ geometry u = Some g /\ st_geometry st = Some h
    /\ (ST_Distance (ST_Transform g 26915) (ST_Transform h 26915) <= d)%Q.
Proof.
  rewrite in_flat_map. split.
  - intros (u & Hu & Hin). apply in_flat_map in Hin.
    destruct Hin as (st & Hst & Hin). apply filter_In in Hst.
    destruct Hst as [Hst Hk]. apply Z.eqb_eq in Hk.
    destruct (holds _) eqn:E in Hin; [| contradiction].
    destruct Hin as [<- | []]. apply holds_and in E. destruct E as [Es Ed].
    destruct (subscribed u) as [[|]|] eqn:Esub; try discriminate.
    destruct (geometry u) as [g|] eqn:Eg, (st_geometry st) as [h|] eqn:Eh;
      try discriminate.
    simpl in Ed. injection Ed as Ed. apply Qle_bool_iff in Ed.
    exists u, st, g, h. repeat split; trivial.
  - intros (u & st & g & h & Hu & Hst & Hk & <- & Es & Eg & Eh & Hd).
    exists u. split; trivial. apply in_flat_map. exists st. split.
    + apply filter_In. split; trivial. now apply Z.eqb_eq.
    + rewrite Es, Eg, Eh. simpl.
      apply Qle_bool_iff in Hd. rewrite Hd. now left.
Qed.

(** C7.  [Users_nearby_sensor] returns, without touching the store, the
    [record_id]s of the users with [subscribed = TRUE] whose geometry, taken
    to the planar system 26915, lies at a distance of at most [distance] from
    that of the sensor; a larger distance loses no user; a [sensor_index]
    absent from the stations gives the empty list. *)
Theorem Users_nearby_sensor_spec (sensor_index : Z) (distance : Q)
    (s : @state Geometry) :
  exists ids,
    Users_nearby_sensor ST_Transform ST_Distance sensor_index distance s
    = (Ok ids, s)
    /\ (forall id,
          In id ids <->
          exists u st g h,
            In u (signups s) /\ In st (stations s)
            /\ st_sensor_index st = sensor_index /\ record_id u = id
            /\ subscribed u = Some true
            /\ geometry u = Some g /\ st_geometry st = Some h
            /\ (ST_Distance (ST_Transform g 26915) (ST_Transform h 26915)
                <= distance)%Q)
    /\ (forall further,
          (distance <= further)%Q ->
          exists more,
            Users_nearby_sensor ST_Transform ST_Distance sensor_index further s
            = (Ok more, s)
            /\ incl ids more)
    /\ ((forall st, In st (stations s) -> st_sensor_index st <> sensor_index)
        -> ids = []).
Proof.
  eexists. split; [reflexivity |]. split; [| split].
  - intros id. apply In_nearby.
  - intros further Hle. eexists. split; [reflexivity |].
    intros id Hid. apply In_nearby. apply In_nearby in Hid.
    destruct Hid as (u & st & g & h & Hu & Hst & Hk & Hi & Es & Eg & Eh & Hd).
    exists u, st, g, h. repeat split; trivial.
    eapply Qle_trans; eassumption.
  - intros Hnone.
    destruct (flat_map _ (signups s)) as [|id l] eqn:E; trivial.
    assert (Hid : In id (id :: l)) by now left.
    rewrite <- E in Hid. apply In_nearby in Hid.
    destruct Hid as (u & st & g & h & _ & Hst & Hk & _).
    elim (Hnone st Hst Hk).
Qed.

(** ** Users_to_message_new_alert *)

Lemma eq_empty_true (a : option (list Z)) :
  eq_empty a = Some true <-> a = Some [].
Proof.
  destruct a as [[|x l]|]; simpl; split; intros H;
    try discriminate; trivial.
Qed.

Lemma eq_any_true (x : Z) (l : list Z) :
  eq_any x (Some l) = Some true <-> In x l.
Proof.
  simpl. split.
  - intros [= H]. apply existsb_exists in H. destruct H as (y & Hy & E).
    apply Z.eqb_eq in E. now subst.
  - intros H. f_equal. apply existsb_exists. exists x.
    split; [assumption | apply Z.eqb_refl].
Qed.

Lemma NoDup_map_inj {A B} (f : A -> B) (l : list A) (x y : A) :
  NoDup (map f l) -> In x l -> In y l -> f x = f y -> x = y.
Proof.
  induction l as [|a l IH]; simpl; [contradiction |].
  intros Hnd Hx Hy E. inversion Hnd as [|? ? Ha Hnd']; subst.
  destruct Hx as [-> | Hx], Hy as [-> | Hy]; trivial.
  - elim Ha. rewrite E. now apply in_map.
  - elim Ha. rewrite <- E. now apply in_map.
  - now apply IH.
Qed.

(** C5.  [Users_to_message_new_alert] returns the candidates that have a row
    in "Sign Up Information" whose [active_alerts] and [cached_alerts] are
    both empty; where [record_id] identifies the rows, a user with a
    non-empty [active_alerts] or [cached_alerts] is not returned; the store
    is left as it was, so that a second call returns the same list. *)
Theorem Users_to_message_new_alert_spec (record_ids : list Z) (s : @state Geometry) :
  exists ids,
    Users_to_message_new_alert record_ids s = (Ok ids, s)
    /\ (forall id,
          In id ids <->
          In id record_ids
          /\ exists u, In u (signups s) /\ record_id u = id
                       /\ active_alerts u = Some []
                       /\ cached_alerts u = Some [])
    /\ (NoDup (map record_id (signups s)) ->
        forall u, In u (signups s) ->
                  active_alerts u <> Some [] \/ cached_alerts u <> Some [] ->
                  ~ In (record_id u) ids)
    /\ Users_to_message_new_alert record_ids
         (snd (Users_to_message_new_alert record_ids s))
       = (Ok ids, s).
Proof.
  eexists. split; [reflexivity |].
  assert (Hin : forall id,
    In id (map record_id
             (filter (fun u : signup =>
                holds (sql_and
                         (sql_and (eq_empty (active_alerts u))
                                  (eq_empty (cached_alerts u)))
                         (eq_any (record_id u) (Some record_ids))))
                (signups s))) <->
    In id record_ids
    /\ exists u, In u (signups s) /\ record_id u = id
                 /\ active_alerts u = Some [] /\ cached_alerts u = Some []).
  { intros id. rewrite in_map_iff. split.
    - intros (u & <- & Hu). apply filter_In in Hu. destruct Hu as [Hu H].
      apply holds_and in H. destruct H as [H Hany].
      assert (H' : holds (sql_and (eq_empty (active_alerts u))
                                  (eq_empty (cached_alerts u))) = true)
        by now rewrite H.
      apply holds_and in H'. destruct H' as [Ha Hc].
      apply eq_empty_true in Ha, Hc. apply eq_any_true in Hany.
      split; trivial. now exists u.
    - intros (Hid & u & Hu & <- & Ha & Hc). exists u. split; trivial.
      apply filter_In. split; trivial.
      apply holds_and. split; [| now apply eq_any_true].
      rewrite Ha, Hc. reflexivity. }
  split; [exact Hin |]. split; [| reflexivity].
  intros Hnd u Hu Hne Hret. apply Hin in Hret.
  destruct Hret as (_ & u' & Hu' & E & Ha & Hc).
  assert (u' = u) as -> by (eapply NoDup_map_inj; eassumption).
  destruct Hne as [H | H]; [exact (H Ha) | exact (H Hc)].
Qed.

(** ** initialize_report *)

(** C3.  [initialize_report] reads the name [report_id], which is neither a
    parameter ([record_id], [reports_for_day], [pg_connection_dict]) nor a
    name of the module: every call raises [NameError] while the command is
    put together, before anything is sent to the database; no row of
    "Reports Archive" is written and no pair is returned. *)
Theorem initialize_report_raises (record_id reports_for_day : Z) (s : @state Geometry) :
  initialize_report record_id reports_for_day s
  = (Raise (NameError "report_id"), s).
Proof. reflexivity. Qed.

(** With the report's identifier in hand, the command would add one row for
    user 13: start and peak over the cached alerts 8 and 9, the minutes gone
    by since the earlier start, the sensors once each in ascending order.
    Where the alerts list different numbers of sensors the command fails. *)
Example report_rows_example :
  report_rows 13 77 Scenario.store1
  = Ok [ {| report_id := 77;
            r_start_time := Some 1699999400000000;
            duration_minutes := Some 35;
            r_max_reading := Some (90 # 1)%Q;
            r_sensor_indices := Some [1; 2; 3];
            r_alert_indices := Some [8; 9] |} ]
  /\ report_rows 13 77 Scenario.store0 = Raise DataError.
Proof. split; reflexivity. Qed.

(** ** send_all_messages *)

Lemma increment_all_state (l : list (option Z)) (s : @state Geometry) :
  snd (increment_all l s) = s.
Proof.
  induction l as [|[v|] l IH]; simpl; trivial.
  unfold bind. destruct (increment_all l s) as [[rest|e] s'];
    simpl in *; congruence.
Qed.

(** C4.  [send_all_messages] leaves "Sign Up Information" as it found it:
    [update_user_table] reads [messages_sent], adds one to each value read,
    prints the result and returns; no [messages_sent] is incremented in the
    store and no [last_messaged] is set. *)
Theorem send_all_messages_keeps_signups (record_ids : list Z)
    (messages : list string) (s : @state Geometry) :
  signups (snd (send_all_messages send_texts record_ids messages s))
  = signups s.
Proof.
  unfold send_all_messages, update_user_table, get_phone_numbers, bind,
    print, fetchall, ret. simpl.
  match goal with
  | |- context [increment_all ?l ?s0] =>
      pose proof (increment_all_state l s0) as Hs;
      destruct (increment_all l s0) as [[new|e] s']
  end; simpl in Hs; subst s'; reflexivity.
Qed.

End SendAlertsFacts.

(** * The properties on concrete data *)

Section Examples.

Import Cell GetSpikes SendAlerts Scenario.

(** The healthy sensor 1 of the reply is clean. *)
Lemma clean_df_iff_witness :
  In (row 1 (Some (40 # 1)%Q)) (sensors_df reply)
  /\ (In (rename_pm25 (row 1 (Some (40 # 1)%Q)))
         (clean_df now0 (sensors_df reply)) <->
      exists pm st t,
        channel_flags (row 1 (Some (40 # 1)%Q)) = Some 0
        /\ channel_state (row 1 (Some (40 # 1)%Q)) = Some st /\ st <> 0
        /\ last_seen (row 1 (Some (40 # 1)%Q)) = Some t
        /\ now0 - timedelta_minutes 60 <= t
        /\ pm2_5_10minute (row 1 (Some (40 # 1)%Q)) = Some pm
        /\ (pm < 1000)%Q).
Proof.
  assert (H : In (row 1 (Some (40 # 1)%Q)) (sensors_df reply))
    by (vm_compute; auto).
  split; [exact H |].
  exact (clean_df_iff now0 (sensors_df reply) (row 1 (Some (40 # 1)%Q)) H).
Defined.

(** Sensor 3 reads 1500: its row is not clean, and [Get_spikes_df] returns
    the sensor among the flagged ones; so it does sensor 4, whose reading is
    null. *)
Lemma unusable_row_is_returned_flagged :
  In (row 3 (Some (1500 # 1)%Q)) (sensors_df reply)
  /\ In (row 4 None) (sensors_df reply)
  /\ snd (fst (Get_spikes_df "key" [1; 2; 3; 4; 5] (35 # 1)%Q world0))
     = [2; 3; 4].
Proof. vm_compute. auto 10. Defined.

Lemma unusable_row_is_flagged_witness :
  ~ In (rename_pm25 (row 3 (Some (1500 # 1)%Q)))
       (clean_df now0 (sensors_df reply))
  /\ In 3 (flagged_sensor_ids (sensors_df reply)
                              (clean_df now0 (sensors_df reply))).
Proof.
  assert (Hin : In (row 3 (Some (1500 # 1)%Q)) (sensors_df reply))
    by (vm_compute; auto).
  assert (Hbad :
    (exists pm, pm2_5_10minute (row 3 (Some (1500 # 1)%Q)) = Some pm
                /\ (1000 <= pm)%Q)
    \/ no_null (rename_pm25 (row 3 (Some (1500 # 1)%Q))) = false).
  { left. exists (1500 # 1)%Q. split; [reflexivity | discriminate]. }
  destruct (unusable_row_is_flagged now0 (sensors_df reply) _ Hin Hbad)
    as (Hnot & _ & Hflag).
  split; [exact Hnot |]. apply Hflag.
  vm_compute. repeat constructor; simpl; intuition discriminate.
Defined.

(** Sensor 5 reads -1 and is clean, yet a threshold of 0 leaves it out. *)
Lemma zero_threshold_leaves_out_clean_row :
  map c_sensor_index (clean_df now0 (sensors_df reply)) = [1; 5]
  /\ fst (fst (fst (Get_spikes_df "key" [1; 2; 3; 4; 5] 0%Q world0)))
     = [ {| s_sensor_index := 1; s_pm25 := Some (40 # 1)%Q |} ]
  /\ spikes_df 0 (clean_df now0 (sensors_df reply))
     <> map spike_of (clean_df now0 (sensors_df reply)).
Proof. vm_compute. repeat split; discriminate. Defined.

Lemma spikes_df_spec_witness :
  spikes_df 0 (clean_df now0 [row 1 (Some (40 # 1)%Q)])
  = map spike_of (clean_df now0 [row 1 (Some (40 # 1)%Q)])
  /\ spikes_df (2000 # 1) (clean_df now0 (sensors_df reply)) = []
  /\ spikes_df 0 (clean_df now0 (sensors_df reply))
     = map spike_of (filter (fun c => c_sensor_index c =? 1)
                            (clean_df now0 (sensors_df reply))).
Proof.
  split; [| split].
  - destruct (spikes_df_spec now0 [row 1 (Some (40 # 1)%Q)] 0)
      as (_ & Hzero & _).
    apply Hzero. intros c v Hc Hv. vm_compute in Hc.
    destruct Hc as [<- | []]. injection Hv as <-. discriminate.
  - destruct (spikes_df_spec now0 (sensors_df reply) (2000 # 1))
      as (_ & _ & _ & Hnone & _).
    apply Hnone. intros c v Hc Hv. vm_compute in Hc.
    destruct Hc as [<- | [<- | []]]; injection Hv as <-; reflexivity.
  - destruct (spikes_df_spec now0 (sensors_df reply) 0)
      as (_ & _ & _ & _ & _ & Horder).
    apply Horder. intros c Hc. vm_compute in Hc.
    destruct Hc as [<- | [<- | []]]; simpl; split.
    + intros _. exists (40 # 1)%Q. split; [reflexivity | discriminate].
    + reflexivity.
    + discriminate.
    + intros (v & E & H). injection E as <-. exfalso. apply H. reflexivity.
Defined.

(** Around sensor 1, user 11 is at 50 m and user 12 at 500 m. *)
Lemma Users_nearby_sensor_spec_witness :
  exists ids more,
    Users_nearby_sensor on_line_transform on_line_distance 1 (100 # 1) store0
    = (Ok ids, store0)
    /\ Users_nearby_sensor on_line_transform on_line_distance 1 (1000 # 1)
         store0
       = (Ok more, store0)
    /\ incl ids more.
Proof.
  destruct (Users_nearby_sensor_spec on_line_transform on_line_distance
              1 (100 # 1) store0) as (ids & E & _ & Hmono & _).
  destruct (Hmono (1000 # 1)%Q) as (more & E' & Hincl); [discriminate |].
  exists ids, more. auto.
Defined.

(** User 12 has an active alert and user 13 cached ones. *)
Lemma Users_to_message_new_alert_spec_witness :
  exists ids,
    Users_to_message_new_alert [11; 12; 13; 14] store0 = (Ok ids, store0)
    /\ ~ In 12 ids /\ ~ In 13 ids.
Proof.
  destruct (Users_to_message_new_alert_spec [11; 12; 13; 14] store0)
    as (ids & E & _ & Hno & _).
  assert (Hnd : NoDup (map record_id (signups store0))).
  { vm_compute. repeat constructor; simpl; intuition discriminate. }
  exists ids. split; [exact E |]. split.
  - apply (Hno Hnd (user 12 true 500 [7] [] 2)).
    + vm_compute. auto.
    + left. discriminate.
  - apply (Hno Hnd (user 13 false 10 [] [8; 9] 3)).
    + vm_compute. auto.
    + right. discriminate.
Defined.

(** After a message to user 11, whose [messages_sent] is 0, the store still
    holds 0 and no [last_messaged]. *)
Example send_all_messages_example :
  let after := snd (send_all_messages delivered [11] ["alert"%string] store0) in
  map (fun u => (record_id u, messages_sent u, last_messaged u))
      (signups after)
  = [(11, Some 0, None); (12, Some 2, None); (13, Some 3, None)].
Proof. reflexivity. Qed.

End Examples.

(** * Further properties of Get_spikes_df.py *)

Section GetSpikesMore.

Import Cell GetSpikes.

(** ** The clean table as one selection *)

Lemma clean_df_filter (now : Z) (df : list sensors_row) :
  clean_df now df = map rename_pm25 (filter (keeps now) df).
Proof.
  unfold clean_df, keeps. induction df as [|r df IH]; simpl; trivial.
  destruct (flags now r); simpl; trivial.
  destruct (lt_Q (pm2_5_10minute r) 1000); simpl; trivial.
  destruct (no_null (rename_pm25 r)); simpl; [f_equal |]; exact IH.
Qed.

Lemma clean_ids_filter (now : Z) (df : list sensors_row) :
  map c_sensor_index (clean_df now df)
  = map sensor_index (filter (keeps now) df).
Proof.
  rewrite clean_df_filter, map_map. reflexivity.
Qed.

Lemma distinct_keys_filter {Row Key} (key : Row -> Key) (keep : Row -> bool)
    (rows : list Row) :
  NoDup (map key rows) -> NoDup (map key (filter keep rows)).
Proof.
  intros Hnd. induction rows as [|r rows IH]; simpl; [constructor |].
  simpl in Hnd. inversion Hnd as [|? ? Hr Hrows]; subst.
  destruct (keep r); simpl; [| now apply IH].
  constructor; [| now apply IH].
  intros Hin. apply Hr. apply in_map_iff in Hin.
  destruct Hin as (x & E & Hx). apply filter_In in Hx.
  rewrite <- E. apply in_map. tauto.
Qed.

Lemma filter_split_length {A} (p : A -> bool) (l : list A) :
  (List.length (filter p l) + List.length (filter (fun x => negb (p x)) l)
   = List.length l)%nat.
Proof.
  induction l as [|a l IH]; simpl; trivial.
  destruct (p a); simpl; lia.
Qed.

Lemma flagged_df_filter (now : Z) (df : list sensors_row) :
  NoDup (map sensor_index df) ->
  flagged_df df (clean_df now df)
  = filter (fun r => negb (keeps now r)) df.
Proof.
  intros Hnd. unfold flagged_df. apply filter_ext_in. intros r Hr.
  f_equal. rewrite clean_ids_filter.
  destruct (keeps now r) eqn:K.
  - apply isin_In. apply in_map. apply filter_In. auto.
  - destruct (isin _ _) eqn:E; trivial. apply isin_In in E.
    apply in_map_iff in E. destruct E as (r' & E & Hr').
    apply filter_In in Hr'. destruct Hr' as [Hr' K'].
    assert (r' = r) as ->; [| congruence].
    clear K K'. induction df as [|x df IH]; [contradiction |].
    simpl in Hnd. inversion Hnd as [|? ? Hx Hnd']; subst.
    destruct Hr as [-> | Hr], Hr' as [-> | Hr']; trivial.
    + elim Hx. rewrite <- E. now apply in_map.
    + elim Hx. rewrite E. now apply in_map.
    + now apply IH.
Qed.

Lemma In_sensors_df (data : list api_row) (r : sensors_row) :
  In r (sensors_df data) <-> exists a, In a data /\ r = correct_last_seen a.
Proof.
  unfold sensors_df. rewrite in_map_iff. split; intros (a & H1 & H2).
  - exists a. auto.
  - exists a. auto.
Qed.

(** X1.  The spikes that [Get_spikes_df] returns, read off the provider's
    reply: a pair of a sensor and a reading is returned exactly for the rows
    of the reply that have channel flags 0, a channel state other than 0, a
    [last_seen] that, five hours taken off, is within sixty minutes of the
    host's clock, and a reading of at least the threshold and less than
    1000. *)
Theorem spikes_of_reply (api : string) (ids : list Z) (thr : Q) (w : world) :
  let spikes := fst (fst (fst (Get_spikes_df api ids thr w))) in
  let url :=
    ("https://api.purpleair.com/v1/sensors?" ++ query_string ids)%string in
  let now := utc_clock w + latency w + local_utcoffset w in
  forall s,
    In s spikes <->
    exists a v st t,
      In a (purpleair w url api)
      /\ s = {| s_sensor_index := a_sensor_index a; s_pm25 := Some v |}
      /\ a_pm2_5_10minute a = Some v
      /\ (thr <= v)%Q /\ (v < 1000)%Q
      /\ a_channel_flags a = Some 0
      /\ a_channel_state a = Some st /\ st <> 0
      /\ a_last_seen a = Some t
      /\ now - timedelta_minutes 60 <= to_datetime_s t - Timedelta_hours 5.
Proof.
  intros spikes url now s.
  destruct (Get_spikes_df_run api ids thr w) as [E _].
  subst spikes. rewrite E. simpl. fold url. fold now.
  rewrite In_spikes_df. split.
  - intros (c & Hc & -> & v & Ev & Hv).
    apply In_clean_df in Hc.
    destruct Hc as (r & Hr & -> & Hf & Hlt & Hnn).
    apply In_sensors_df in Hr. destruct Hr as (a & Ha & ->).
    apply flags_false_iff in Hf. destruct Hf as (Ef & Hs & Ht).
    apply no_null_iff in Hnn.
    destruct Hnn as (pm & f & st & t' & Epm & _ & Est & Et).
    simpl in *. rewrite Ev in Hlt. simpl in Hlt. apply Qlt_bool_iff in Hlt.
    destruct (a_last_seen a) as [t|] eqn:Els; [| discriminate].
    exists a, v, st, t. unfold spike_of. simpl. rewrite Ev.
    repeat split; trivial; try congruence.
    apply Ht. reflexivity.
  - intros (a & v & st & t & Ha & -> & Epm & Hge & Hlt & Ef & Est & Hst
            & Els & Ht).
    exists (rename_pm25 (correct_last_seen a)). split; [| split].
    + apply In_clean_df_rename. split; [| split; [| split]].
      * apply In_sensors_df. now exists a.
      * apply flags_false_iff. simpl. rewrite Els. simpl.
        repeat split; trivial; [congruence |]. intros t' [= <-]. exact Ht.
      * simpl. rewrite Epm. simpl. now apply Qlt_bool_iff.
      * apply no_null_iff. simpl. rewrite Els. simpl.
        exists v, 0, st, (to_datetime_s t - Timedelta_hours 5). auto.
    + unfold spike_of. simpl. now rewrite Epm.
    + exists v. simpl. auto.
Qed.

(** X2.  The threshold only selects among the spikes: a higher threshold
    returns a part of what a lower one returns, and neither the runtime, nor
    the flagged sensors, nor the request made depend on it. *)
Theorem threshold_only_narrows (api : string) (ids : list Z) (lo hi : Q)
    (w : world) :
  (lo <= hi)%Q ->
  let low := Get_spikes_df api ids lo w in
  let high := Get_spikes_df api ids hi w in
  incl (fst (fst (fst high))) (fst (fst (fst low)))
  /\ snd (fst (fst high)) = snd (fst (fst low))
  /\ snd (fst high) = snd (fst low)
  /\ snd high = snd low.
Proof.
  intros Hle low high. subst low high.
  destruct (Get_spikes_df_run api ids lo w) as [El _].
  destruct (Get_spikes_df_run api ids hi w) as [Eh _].
  rewrite El, Eh. simpl.
  split; [| repeat split].
  intros s Hs. apply In_spikes_df in Hs. apply In_spikes_df.
  destruct Hs as (c & Hc & -> & v & Ev & Hv).
  exists c. repeat split; trivial. exists v. split; trivial.
  eapply Qle_trans; eassumption.
Qed.

(** X3.  When the rows of the reply have distinct sensors, no sensor is
    returned twice among the spikes or twice among the flagged sensors, and
    the flagged sensors number the rows of the reply less the clean rows; so
    spikes and flagged sensors together never outnumber the rows. *)
Theorem outputs_without_repeats (api : string) (ids : list Z) (thr : Q)
    (w : world) :
  let run := fst (Get_spikes_df api ids thr w) in
  let spikes := fst (fst run) in
  let flagged := snd run in
  let url :=
    ("https://api.purpleair.com/v1/sensors?" ++ query_string ids)%string in
  let data := purpleair w url api in
  let clean :=
    clean_df (utc_clock w + latency w + local_utcoffset w) (sensors_df data) in
  NoDup (map a_sensor_index data) ->
  NoDup (map s_sensor_index spikes)
  /\ NoDup flagged
  /\ (List.length flagged + List.length clean = List.length data)%nat
  /\ (List.length spikes + List.length flagged <= List.length data)%nat.
Proof.
  intros run spikes flagged url data clean Hnd.
  destruct (Get_spikes_df_run api ids thr w) as [E _].
  subst spikes flagged run. rewrite E. cbn [fst snd].
  fold url. fold data. fold clean.
  assert (Hnd' : NoDup (map sensor_index (sensors_df data))).
  { unfold sensors_df. rewrite map_map. exact Hnd. }
  set (now := utc_clock w + latency w + local_utcoffset w) in *.
  assert (Hlen : (List.length (flagged_sensor_ids (sensors_df data) clean)
                  + List.length clean = List.length data)%nat).
  { unfold flagged_sensor_ids. subst clean.
    rewrite flagged_df_filter by exact Hnd'.
    rewrite clean_df_filter, !length_map.
    rewrite Nat.add_comm, filter_split_length.
    unfold sensors_df. apply length_map. }
  assert (Hsp : (List.length (spikes_df thr clean) <= List.length clean)%nat).
  { unfold spikes_df. rewrite length_map. apply filter_length_le. }
  split; [| split; [| split]].
  - unfold spikes_df. rewrite map_map. simpl.
    apply (distinct_keys_filter c_sensor_index). subst clean.
    rewrite clean_ids_filter. now apply distinct_keys_filter.
  - unfold flagged_sensor_ids, flagged_df. now apply distinct_keys_filter.
  - exact Hlen.
  - lia.
Qed.

(** ** Staleness and the host's clock *)

Lemma NoDup_clean_id (now : Z) (df : list sensors_row) (r : sensors_row) :
  NoDup (map sensor_index df) -> In r df ->
  (In (sensor_index r) (map c_sensor_index (clean_df now df)) <->
   keeps now r = true).
Proof.
  intros Hnd Hr. unfold keeps. rewrite !andb_true_iff, negb_true_iff. split.
  - intros Hid. apply (NoDup_ids_clean now df r Hnd Hr) in Hid.
    apply In_clean_df_rename in Hid. tauto.
  - intros [[Hf Hlt] Hnn]. apply in_map_iff. exists (rename_pm25 r).
    split; [reflexivity |]. apply In_clean_df_rename. auto.
Qed.

(** X4.  When the reply's sensors are distinct, a sensor whose row is
    otherwise healthy (flags 0, state not 0, reading below 1000, nothing
    null) is returned as flagged exactly when the provider's [last_seen],
    plus sixty minutes, lies before the instant the reply arrived shifted by
    the host's offset from UTC plus five hours: the sixty minutes are
    measured rightly only on a host five hours behind UTC. *)
Theorem flagged_for_staleness (api : string) (ids : list Z) (thr : Q)
    (w : world) (a : api_row) (v : Q) (st seen : Z) :
  let flagged := snd (fst (Get_spikes_df api ids thr w)) in
  let url :=
    ("https://api.purpleair.com/v1/sensors?" ++ query_string ids)%string in
  let data := purpleair w url api in
  NoDup (map a_sensor_index data) ->
  In a data ->
  a_channel_flags a = Some 0 ->
  a_channel_state a = Some st -> st <> 0 ->
  a_pm2_5_10minute a = Some v -> (v < 1000)%Q ->
  a_last_seen a = Some seen ->
  (In (a_sensor_index a) flagged <->
   microseconds seen + timedelta_minutes 60
   < utc_clock w + latency w + (local_utcoffset w + Timedelta_hours 5)).
Proof.
  intros flagged url data Hnd Ha Ef Est Hst Epm Hlt Els.
  destruct (Get_spikes_df_run api ids thr w) as [E _].
  subst flagged. rewrite E. cbn [fst snd]. fold url. fold data.
  set (now := utc_clock w + latency w + local_utcoffset w).
  assert (Hnd' : NoDup (map sensor_index (sensors_df data))).
  { unfold sensors_df. rewrite map_map. exact Hnd. }
  assert (Hr : In (correct_last_seen a) (sensors_df data)).
  { apply In_sensors_df. now exists a. }
  change (a_sensor_index a) with (sensor_index (correct_last_seen a)).
  rewrite In_flagged_sensor_ids.
  rewrite (NoDup_clean_id now _ _ Hnd' Hr).
  assert (K : keeps now (correct_last_seen a)
              = negb (to_datetime_s seen - Timedelta_hours 5
                      <? now - timedelta_minutes 60)).
  { unfold keeps, flags, no_null. simpl.
    rewrite Ef, Est, Epm, Els. simpl.
    apply Qlt_bool_iff in Hlt. rewrite Hlt.
    apply Z.eqb_neq in Hst. rewrite Hst. simpl.
    now rewrite !andb_true_r. }
  rewrite K. subst now.
  unfold to_datetime_s, Timedelta_hours, timedelta_minutes, microseconds.
  destruct (Z.ltb_spec (seen * 1000000 - 5 * 3600 * 1000000)
              (utc_clock w + latency w + local_utcoffset w
               - 60 * 60 * 1000000)) as [L | L]; simpl; split.
  - intros _. lia.
  - intros _. split; [exact (in_map sensor_index _ _ Hr) | discriminate].
  - intros [_ H]. now elim H.
  - intros H. lia.
Qed.

(** X5.  On a host whose offset from UTC is more than minus four hours (a
    host on UTC, say), every row last seen no later than the arrival of the
    reply counts as stale: for a reply of at least one row, [Get_spikes_df]
    returns no spike at all and returns every sensor of the reply as
    flagged. *)
Theorem host_clock_ahead_flags_all (api : string) (ids : list Z) (thr : Q)
    (w : world) :
  let url :=
    ("https://api.purpleair.com/v1/sensors?" ++ query_string ids)%string in
  let data := purpleair w url api in
  data <> [] ->
  - Timedelta_hours 4 < local_utcoffset w ->
  (forall a seen, In a data -> a_last_seen a = Some seen ->
                  microseconds seen <= utc_clock w + latency w) ->
  fst (Get_spikes_df api ids thr w)
  = ([], {| instant := utc_clock w; tzname := "America/Chicago" |},
     map a_sensor_index data).
Proof.
  intros url data _ Hoff Hseen.
  destruct (Get_spikes_df_run api ids thr w) as [E _].
  rewrite E. fold url. fold data.
  set (now := utc_clock w + latency w + local_utcoffset w).
  assert (Hclean : clean_df now (sensors_df data) = []).
  { rewrite clean_df_filter, filter_none; trivial.
    intros r Hr. apply In_sensors_df in Hr. destruct Hr as (a & Ha & ->).
    unfold keeps, flags, no_null. simpl.
    destruct (a_last_seen a) as [seen|] eqn:Els; simpl.
    - assert (L : to_datetime_s seen - Timedelta_hours 5
                  < now - timedelta_minutes 60).
      { specialize (Hseen a seen Ha Els). subst now.
        unfold to_datetime_s, Timedelta_hours, timedelta_minutes,
          microseconds in *. lia. }
      apply Z.ltb_lt in L. rewrite L. now rewrite orb_true_r.
    - now rewrite !andb_false_r. }
  rewrite Hclean. unfold spikes_df, flagged_sensor_ids, flagged_df. simpl.
  rewrite filter_all by reflexivity.
  unfold sensors_df. now rewrite map_map.
Qed.

(** ** The text of the request *)

Lemma str_parses (z : Z) :
  NilZero.int_of_string (str z) = Some (Z.to_int z).
Proof.
  unfold str. apply NilZero.isi.
  - destruct z; simpl; try discriminate.
    intros [= H]. exact (Unsigned.to_uint_nonnil _ H).
  - destruct z; simpl; try discriminate.
    intros [= H]. exact (Unsigned.to_uint_nonnil _ H).
Qed.

Lemma str_inj (a b : Z) : str a = str b -> a = b.
Proof.
  intros E. pose proof (str_parses a) as Ha. rewrite E, str_parses in Ha.
  injection Ha as Ha.
  rewrite <- (DecimalZ.of_to a), <- (DecimalZ.of_to b). now rewrite Ha.
Qed.

Lemma uint_no_percent (d : Decimal.uint) (c : ascii) :
  In c (list_ascii_of_string (NilEmpty.string_of_uint d)) -> c <> "%"%char.
Proof.
  induction d; simpl; intros H; try contradiction;
    destruct H as [<- | H]; try discriminate; auto.
Qed.

Lemma str_no_percent (z : Z) (c : ascii) :
  In c (list_ascii_of_string (str z)) -> c <> "%"%char.
Proof.
  unfold str, NilZero.string_of_int, NilZero.string_of_uint.
  destruct (Z.to_int z) as [d | d]; simpl.
  - destruct d; try apply uint_no_percent.
    simpl. intros [<- | []]. discriminate.
  - intros [<- | H]; [discriminate |]. revert H.
    destruct d; try apply uint_no_percent.
    simpl. intros [<- | []]. discriminate.
Qed.

Lemma str_nonempty (z : Z) : str z <> ""%string.
Proof.
  intros E. pose proof (str_parses z) as H. rewrite E in H. discriminate.
Qed.

Lemma append_inj_l (p x y : string) :
  (p ++ x = p ++ y)%string -> x = y.
Proof.
  induction p as [|c p IH]; simpl; trivial. intros [= H]. auto.
Qed.

(** Two words without a percent sign, each followed by nothing or by a
    percent sign: equal texts have equal words. *)
Lemma word_split (x y r r' : string) :
  (forall c, In c (list_ascii_of_string x) -> c <> "%"%char) ->
  (forall c, In c (list_ascii_of_string y) -> c <> "%"%char) ->
  (r = "" \/ exists t, r = String "%" t)%string ->
  (r' = "" \/ exists t, r' = String "%" t)%string ->
  (x ++ r = y ++ r')%string -> x = y /\ r = r'.
Proof.
  revert y. induction x as [|c x IH]; intros [|d y] Hx Hy Hr Hr' E;
    simpl in E.
  - auto.
  - exfalso. destruct Hr as [-> | (t & ->)]; [discriminate |].
    injection E as E _. apply (Hy d); [now left | now symmetry].
  - exfalso. destruct Hr' as [-> | (t & ->)]; [discriminate |].
    injection E as E _. apply (Hx c); [now left | assumption].
  - injection E as -> E.
    destruct (IH y) as [-> ->]; auto.
    + intros c Hc. apply Hx. now right.
    + intros c Hc. apply Hy. now right.
Qed.

Lemma concat_cons (x : string) (l : list string) :
  exists r, String.concat "%2C" (x :: l) = (x ++ r)%string
            /\ (r = "" \/ exists t, r = String "%" t)%string
            /\ (l = [] -> r = ""%string)
            /\ (l <> [] -> r = ("%2C" ++ String.concat "%2C" l)%string).
Proof.
  destruct l as [|y l].
  - exists ""%string. simpl. split; [| split; [| split]]; auto.
    + induction x; simpl; congruence.
    + intros H. now elim H.
  - exists ("%2C" ++ String.concat "%2C" (y :: l))%string.
    split; [reflexivity |]. split; [| split]; auto.
    + right. eexists. reflexivity.
    + discriminate.
Qed.

Lemma concat_str_inj (l l' : list Z) :
  String.concat "%2C" (map str l) = String.concat "%2C" (map str l') ->
  l = l'.
Proof.
  revert l'. induction l as [|a l IH]; intros [|b l'] E; trivial.
  - exfalso. simpl map in E.
    destruct (concat_cons (str b) (map str l')) as (r & Eb & _).
    rewrite Eb in E. simpl in E.
    destruct (str b) eqn:S; [now apply (str_nonempty b) | discriminate].
  - exfalso. simpl map in E.
    destruct (concat_cons (str a) (map str l)) as (r & Ea & _).
    rewrite Ea in E. simpl in E.
    destruct (str a) eqn:S; [now apply (str_nonempty a) | discriminate].
  - simpl map in E.
    destruct (concat_cons (str a) (map str l)) as (r & Ea & Hr & Hn & Hc).
    destruct (concat_cons (str b) (map str l')) as (r' & Eb & Hr' & Hn' & Hc').
    rewrite Ea, Eb in E.
    destruct (word_split _ _ _ _ (str_no_percent a) (str_no_percent b)
                Hr Hr' E) as [Eab Err].
    apply str_inj in Eab. subst b. f_equal.
    destruct l as [|a1 l], l' as [|b1 l']; trivial.
    + exfalso. rewrite Hn in Err by reflexivity.
      rewrite Hc' in Err by discriminate. discriminate.
    + exfalso. rewrite Hn' in Err by reflexivity.
      rewrite Hc in Err by discriminate. discriminate.
    + apply IH. rewrite Hc in Err by discriminate.
      rewrite Hc' in Err by discriminate.
      now apply append_inj_l in Err.
Qed.

Lemma query_string_eq (sensor_ids : list Z) :
  query_string sensor_ids
  = ("fields=pm2.5_10minute%2Cchannel_flags%2Cchannel_state%2Clast_seen"
     ++ "&show_only=" ++ String.concat "%2C" (map str sensor_ids))%string.
Proof. reflexivity. Qed.

(** X6.  The request names the sensors asked for, and nothing is lost in
    the writing: two lists of sensors that differ, be it in one identifier,
    in length or in order, give different query strings. *)
Theorem query_string_inj (ids ids' : list Z) :
  query_string ids = query_string ids' -> ids = ids'.
Proof.
  rewrite !query_string_eq. intros E.
  apply append_inj_l in E. apply append_inj_l in E.
  now apply concat_str_inj.
Qed.

End GetSpikesMore.

(** * Further properties of Send_Alerts.py *)

Section SendAlertsMore.

Import SendAlerts.

Context {Geometry : Type}.
Variable ST_Transform : Geometry -> Z -> Geometry.
Variable ST_Distance : Geometry -> Geometry -> Q.

(** ** Lists *)

Lemma flat_map_if {A B} (q : A -> bool) (f : A -> B) (l : list A) :
  flat_map (fun x => if q x then [f x] else []) l = map f (filter q l).
Proof.
  induction l as [|a l IH]; simpl; trivial.
  destruct (q a); simpl; now rewrite IH.
Qed.

Lemma filter_key_unique {A} (key : A -> Z) (k : Z) (l : list A) :
  NoDup (map key l) ->
  filter (fun x => key x =? k) l = []
  \/ exists x, filter (fun x => key x =? k) l = [x].
Proof.
  induction l as [|a l IH]; simpl; intros H; [now left |].
  inversion H as [|? ? Ha Hl]; subst.
  destruct (Z.eqb_spec (key a) k) as [E | E]; [| now apply IH].
  right. exists a. f_equal. apply filter_none. intros x Hx.
  apply Z.eqb_neq. intros E'. apply Ha. rewrite E, <- E'.
  now apply in_map.
Qed.

(** ** Who is written to, and how often *)

(** X7.  Where [sensor_index] identifies the stations and [record_id] the
    users, [Users_nearby_sensor] returns no user twice. *)
Theorem Users_nearby_sensor_no_repeats (sensor_index : Z) (distance : Q)
    (s : @state Geometry) :
  NoDup (map st_sensor_index (stations s)) ->
  NoDup (map record_id (signups s)) ->
  exists ids,
    Users_nearby_sensor ST_Transform ST_Distance sensor_index distance s
    = (Ok ids, s)
    /\ NoDup ids.
Proof.
  intros Hst Hu. eexists. split; [reflexivity |].
  destruct (filter_key_unique st_sensor_index sensor_index _ Hst)
    as [E | (st & E)]; rewrite E; simpl.
  - clear Hu. induction (signups s); simpl; [constructor | assumption].
  - erewrite flat_map_ext.
    + rewrite flat_map_if. apply distinct_keys_filter. exact Hu.
    + intros u. simpl. rewrite app_nil_r. reflexivity.
Qed.


(** ** The gate for new alerts *)

Lemma eligible_iff (record_ids : list Z) (u : @signup Geometry) :
  holds (sql_and
           (sql_and (eq_empty (active_alerts u)) (eq_empty (cached_alerts u)))
           (eq_any (record_id u) (Some record_ids))) = true <->
  active_alerts u = Some [] /\ cached_alerts u = Some []
  /\ In (record_id u) record_ids.
Proof.
  rewrite holds_and, eq_any_true. split.
  - intros [H Hin].
    assert (H' : holds (sql_and (eq_empty (active_alerts u))
                                (eq_empty (cached_alerts u))) = true)
      by now rewrite H.
    apply holds_and in H'. destruct H' as [Ha Hc].
    apply eq_empty_true in Ha, Hc. auto.
  - intros (Ha & Hc & Hin). split; trivial. now rewrite Ha, Hc.
Qed.

Lemma In_new_alert (record_ids : list Z) (s : @state Geometry) (id : Z) :
  In id (map record_id
           (filter (fun u : signup =>
              holds (sql_and
                       (sql_and (eq_empty (active_alerts u))
                                (eq_empty (cached_alerts u)))
                       (eq_any (record_id u) (Some record_ids))))
              (signups s))) <->
  exists u, In u (signups s) /\ record_id u = id
            /\ active_alerts u = Some [] /\ cached_alerts u = Some []
            /\ In id record_ids.
Proof.
  rewrite in_map_iff. split.
  - intros (u & <- & Hu). apply filter_In in Hu. destruct Hu as [Hu H].
    apply eligible_iff in H. destruct H as (Ha & Hc & Hin).
    exists u. repeat split; trivial.
  - intros (u & Hu & <- & Ha & Hc & Hin). exists u. split; trivial.
    apply filter_In. split; trivial. now apply eligible_iff.
Qed.

Lemma bool_eq_iff (a b : bool) : (a = true <-> b = true) -> a = b.
Proof. destruct a, b; intros [H1 H2]; auto; symmetry; auto. Qed.

(** X9.  [Users_to_message_new_alert] looks only at which identifiers are
    among the candidates: their order and repetitions change nothing, the
    answer follows the order of the table; it repeats no user where
    [record_id] identifies the rows. *)
Theorem new_alert_candidates_as_set (record_ids record_ids' : list Z)
    (s : @state Geometry) :
  (forall id, In id record_ids <-> In id record_ids') ->
  Users_to_message_new_alert record_ids s
  = Users_to_message_new_alert record_ids' s
  /\ (NoDup (map record_id (signups s)) ->
      exists ids, Users_to_message_new_alert record_ids s = (Ok ids, s)
                  /\ NoDup ids).
Proof.
  intros Hset. split.
  - unfold Users_to_message_new_alert, bind, fetchall, ret. cbv beta iota.
    do 3 f_equal. apply filter_ext. intros u. apply bool_eq_iff.
    cbv beta. rewrite !eligible_iff, Hset. reflexivity.
  - intros Hnd. eexists. split; [reflexivity |].
    now apply distinct_keys_filter.
Qed.

(** X10.  The answer of [Users_to_message_new_alert] is made of candidates,
    and asking again about the answer gives the answer back. *)
Theorem new_alert_answer_is_stable (record_ids : list Z)
    (s : @state Geometry) :
  exists ids,
    Users_to_message_new_alert record_ids s = (Ok ids, s)
    /\ incl ids record_ids
    /\ Users_to_message_new_alert ids s = (Ok ids, s).
Proof.
  eexists. split; [reflexivity |]. split.
  - intros id Hid. apply In_new_alert in Hid.
    destruct Hid as (u & _ & _ & _ & _ & Hin). exact Hin.
  - unfold Users_to_message_new_alert, bind, fetchall, ret. cbv beta iota.
    do 3 f_equal. apply filter_ext_in. intros u Hu. apply bool_eq_iff.
    cbv beta. rewrite !eligible_iff. split.
    + intros (Ha & Hc & Hin). apply In_new_alert in Hin.
      destruct Hin as (u' & _ & _ & _ & _ & Hin). auto.
    + intros (Ha & Hc & Hin). repeat split; trivial.
      apply In_new_alert. exists u. auto.
Qed.

(** X11.  The two selections in a row: where [record_id] identifies the
    users, those returned by [Users_to_message_new_alert] for the users that
    [Users_nearby_sensor] returns are the subscribed users within the
    distance of the sensor who have neither an active nor a cached alert. *)
Theorem nearby_users_for_new_alert (sensor_index : Z) (distance : Q)
    (s : @state Geometry) :
  NoDup (map record_id (signups s)) ->
  exists ids,
    bind (Users_nearby_sensor ST_Transform ST_Distance sensor_index distance)
         Users_to_message_new_alert s
    = (Ok ids, s)
    /\ forall id,
         In id ids <->
         exists u st g h,
           In u (signups s) /\ In st (stations s)
           /\ st_sensor_index st = sensor_index /\ record_id u = id
           /\ subscribed u = Some true
           /\ geometry u = Some g /\ st_geometry st = Some h
           /\ (ST_Distance (ST_Transform g 26915) (ST_Transform h 26915)
               <= distance)%Q
           /\ active_alerts u = Some [] /\ cached_alerts u = Some [].
Proof.
  intros Hnd. eexists. split; [reflexivity |]. intros id.
  rewrite In_new_alert. split.
  - intros (u & Hu & <- & Ha & Hc & Hin).
    apply (In_nearby ST_Transform ST_Distance) in Hin.
    destruct Hin as (u' & st & g & h & Hu' & Hst & Hk & E & Es & Eg & Eh & Hd).
    assert (u' = u) as -> by (eapply NoDup_map_inj; eassumption).
    exists u, st, g, h. repeat split; trivial.
  - intros (u & st & g & h & Hu & Hst & Hk & <- & Es & Eg & Eh & Hd & Ha & Hc).
    exists u. repeat split; trivial.
    apply (In_nearby ST_Transform ST_Distance).
    exists u, st, g, h. repeat split; trivial.
Qed.

(** ** Sending and recording *)

(** X12.  [get_phone_numbers] gives one number for each user, in order,
    different numbers for different users; it prints one line and does not
    touch a table. *)
Theorem get_phone_numbers_spec (users : list Z) (s : @state Geometry) :
  exists numbers s',
    get_phone_numbers users s = (Ok numbers, s')
    /\ List.length numbers = List.length users
    /\ (forall i a b, nth_error users i = Some a ->
                      nth_error numbers i = Some b -> b = a * 100)
    /\ (NoDup users -> NoDup numbers)
    /\ stdout s' = stdout s ++ [Text "getting numbers!"]
    /\ stations s' = stations s /\ signups s' = signups s
    /\ archived_alerts s' = archived_alerts s /\ reports s' = reports s.
Proof.
  eexists. eexists. split; [reflexivity |]. simpl.
  split; [apply length_map |]. split; [| split].
  - intros i a b Ha Hb. rewrite nth_error_map, Ha in Hb. simpl in Hb.
    congruence.
  - intros Hnd. induction Hnd as [|a l Ha Hl IH]; simpl; constructor; trivial.
    rewrite in_map_iff. intros (x & E & Hx).
    assert (x = a) by lia. now subst x.
  - repeat split.
Qed.

Lemma increment_all_spec (l : list (option Z)) (s : @state Geometry) :
  (In None l /\ increment_all l s = (Raise TypeError, s))
  \/ (exists vs, l = map Some vs
                 /\ increment_all l s = (Ok (map (fun v => v + 1) vs), s)).
Proof.
  induction l as [|[v|] l IH]; simpl.
  - right. now exists [].
  - unfold bind, ret.
    destruct IH as [[Hin E] | (vs & -> & E)]; rewrite E.
    + left. auto.
    + right. exists (v :: vs). auto.
  - left. auto.
Qed.

(** The two ways [update_user_table] can end. *)
Lemma update_user_table_cases (record_ids times : list Z)
    (s : @state Geometry) :
  let run := update_user_table record_ids times s in
  let s' := snd run in
  let listed :=
    filter (fun u => holds (eq_any (record_id u) (Some record_ids)))
           (signups s) in
  (stations s' = stations s /\ signups s' = signups s
   /\ archived_alerts s' = archived_alerts s /\ reports s' = reports s)
  /\ ((exists u, In u (signups s) /\ In (record_id u) record_ids
                 /\ messages_sent u = None) ->
      fst run = Raise TypeError
      /\ stdout s' = stdout s ++ [Text "updating Sign Up Information"])
  /\ ((forall u, In u (signups s) -> In (record_id u) record_ids ->
                 messages_sent u <> None) ->
      exists messages_sent_new,
        fst run = Ok tt
        /\ stdout s'
           = stdout s
             ++ [Text "updating Sign Up Information";
                 Values record_ids times messages_sent_new;
                 Text "fancy SQL to update the sign up table still pending"]
        /\ Forall2 (fun u n => messages_sent u = Some (n - 1))
                   listed messages_sent_new).
Proof.
  intros run s' listed. subst s' run.
  unfold update_user_table, bind, print, fetchall, ret. cbv beta iota.
  cbn [signups]. fold listed.
  match goal with
  | |- context [increment_all ?l ?s0] =>
      destruct (increment_all_spec l s0) as [[Hin E] | (vs & El & E)];
      rewrite E; clear E
  end; cbn [fst snd stations signups archived_alerts reports stdout
            current_timestamp].
  - split; [repeat split |]. split.
    + intros _. split; trivial.
    + intros Hall. exfalso. apply in_map_iff in Hin.
      destruct Hin as (u & Eu & Hu). apply filter_In in Hu.
      destruct Hu as [Hu Hl]. apply (Hall u Hu); trivial.
      apply eq_any_true. destruct (eq_any _ _) as [[|]|]; trivial;
        discriminate.
  - split; [repeat split |]. split.
    + intros (u & Hu & Hl & En). exfalso.
      assert (Hin : In None (map messages_sent listed)).
      { rewrite <- En. apply in_map. apply filter_In. split; trivial.
        apply eq_any_true in Hl. now rewrite Hl. }
      rewrite El in Hin. apply in_map_iff in Hin.
      destruct Hin as (x & Ex & _). discriminate.
    + intros _. exists (map (fun v => v + 1) vs). split; trivial. split.
      * rewrite <- !app_assoc. reflexivity.
      * clear - El. revert vs El.
        induction listed as [|u l IH]; intros [|v vs] El;
          try discriminate; simpl; constructor.
        -- simpl in El. injection El as -> _. f_equal. lia.
        -- apply IH. simpl in El. now injection El.
Qed.

(** X13.  [update_user_table] never writes a table.  It raises [TypeError]
    exactly when a row whose [record_id] is listed has a null
    [messages_sent], having printed its first line only; otherwise it
    returns, having printed the identifiers and times it was given and, for
    each listed row in the order of the table, [messages_sent] plus one. *)
Theorem update_user_table_outcome (record_ids times : list Z)
    (s : @state Geometry) :
  let run := update_user_table record_ids times s in
  let s' := snd run in
  let listed :=
    filter (fun u => holds (eq_any (record_id u) (Some record_ids)))
           (signups s) in
  (stations s' = stations s /\ signups s' = signups s
   /\ archived_alerts s' = archived_alerts s /\ reports s' = reports s)
  /\ ((exists u, In u (signups s) /\ In (record_id u) record_ids
                 /\ messages_sent u = None) ->
      fst run = Raise TypeError
      /\ stdout s' = stdout s ++ [Text "updating Sign Up Information"])
  /\ ((forall u, In u (signups s) -> In (record_id u) record_ids ->
                 messages_sent u <> None) ->
      exists messages_sent_new,
        fst run = Ok tt
        /\ stdout s'
           = stdout s
             ++ [Text "updating Sign Up Information";
                 Values record_ids times messages_sent_new;
                 Text "fancy SQL to update the sign up table still pending"]
        /\ Forall2 (fun u n => messages_sent u = Some (n - 1))
                   listed messages_sent_new).
Proof. exact (update_user_table_cases record_ids times s). Qed.

(** X14.  What [update_user_table] computes follows the table and not the
    list it is given: two lists with the same identifiers, whatever their
    order, lead to the same outcome and to the same incremented values on
    the printed line. *)
Theorem update_user_table_ignores_order (record_ids record_ids' times
    : list Z) (s : @state Geometry) :
  (forall id, In id record_ids <-> In id record_ids') ->
  let run := update_user_table record_ids times s in
  let run' := update_user_table record_ids' times s in
  fst run = fst run'
  /\ ((fst run = Raise TypeError /\ stdout (snd run) = stdout (snd run'))
      \/ exists messages_sent_new,
           stdout (snd run)
           = stdout s
             ++ [Text "updating Sign Up Information";
                 Values record_ids times messages_sent_new;
                 Text "fancy SQL to update the sign up table still pending"]
           /\ stdout (snd run')
              = stdout s
                ++ [Text "updating Sign Up Information";
                    Values record_ids' times messages_sent_new;
                    Text "fancy SQL to update the sign up table still pending"]).
Proof.
  intros Hset run run'. subst run run'.
  unfold update_user_table, bind, print, fetchall, ret. cbv beta iota.
  cbn [signups].
  assert (Hl : filter (fun u : @signup Geometry =>
                         holds (eq_any (record_id u) (Some record_ids')))
                      (signups s)
               = filter (fun u => holds (eq_any (record_id u)
                                                (Some record_ids)))
                        (signups s)).
  { apply filter_ext. intros u. apply bool_eq_iff.
    assert (H : forall l, holds (eq_any (record_id u) (Some l)) = true
                          <-> In (record_id u) l).
    { intros l. rewrite <- eq_any_true.
      destruct (eq_any _ _) as [[|]|]; simpl; split; congruence. }
    rewrite !H. symmetry. apply Hset. }
  rewrite Hl.
  match goal with
  | |- context [increment_all ?l ?s0] =>
      destruct (increment_all_spec l s0) as [[Hin E] | (vs & El & E)];
      rewrite E; clear E
  end; cbn [fst snd stdout].
  - split; trivial. left. auto.
  - split; trivial. right. exists (map (fun v => v + 1) vs).
    rewrite <- !app_assoc. auto.
Qed.

Variable send_texts : list Z -> list string -> list Z.

(** X15.  [send_all_messages] hands to [send_texts] the numbers 100 times
    the identifiers, with the messages as they came, and prints the times it
    gets back; it writes no table, and it raises [TypeError] after that
    hand-over when a listed row has a null [messages_sent]. *)
Theorem send_all_messages_outcome (record_ids : list Z)
    (messages : list string) (s : @state Geometry) :
  let run := send_all_messages send_texts record_ids messages s in
  let s' := snd run in
  let times :=
    send_texts (map (fun record_id => record_id * 100) record_ids) messages in
  (stations s' = stations s /\ signups s' = signups s
   /\ archived_alerts s' = archived_alerts s /\ reports s' = reports s)
  /\ ((exists u, In u (signups s) /\ In (record_id u) record_ids
                 /\ messages_sent u = None) ->
      fst run = Raise TypeError)
  /\ ((forall u, In u (signups s) -> In (record_id u) record_ids ->
                 messages_sent u <> None) ->
      exists messages_sent_new,
        fst run = Ok tt
        /\ stdout s'
           = stdout s
             ++ [Text "getting numbers!";
                 Text "updating Sign Up Information";
                 Values record_ids times messages_sent_new;
                 Text "fancy SQL to update the sign up table still pending"]).
Proof.
  intros run s' times. subst s' run.
  set (s1 := snd (get_phone_numbers record_ids s)).
  assert (E : send_all_messages send_texts record_ids messages s
              = match update_user_table record_ids times s1 with
                | (Ok _, s2) => (Ok tt, s2)
                | (Raise e, s2) => (Raise e, s2)
                end) by reflexivity.
  rewrite E. clear E.
  pose proof (update_user_table_cases record_ids times s1) as H.
  cbv zeta in H. destruct H as (Ht & Hraise & Hok).
  change (signups s1) with (signups s) in Hraise, Hok.
  destruct (update_user_table record_ids times s1) as [[[]|e] s2] eqn:U;
    cbn [fst snd] in *.
  - split; [exact Ht |]. split.
    + intros Hex. destruct (Hraise Hex) as [H _]. discriminate.
    + intros Hall. destruct (Hok Hall) as (new & _ & Hout & _).
      exists new. split; trivial. rewrite Hout. subst s1. simpl.
      now rewrite <- app_assoc.
  - split; [exact Ht |]. split.
    + intros Hex. destruct (Hraise Hex) as [H _]. exact H.
    + intros Hall. destruct (Hok Hall) as (new & H & _). discriminate.
Qed.

(** ** The length of a report *)

Lemma rem_bounds (d b : Z) :
  0 < b ->
  (0 <= d -> 0 <= Z.rem d b < b) /\ (d <= 0 -> - b < Z.rem d b <= 0).
Proof.
  intros Hb. split; intros Hd.
  - now apply Z.rem_bound_pos_pos.
  - now apply Z.rem_bound_pos_neg.
Qed.

(** X16.  The expression that [initialize_report] writes for
    [duration_minutes], days times 24 plus hours, times 60, plus minutes of
    the time elapsed, is the elapsed time in whole minutes, cut off towards
    zero: for a start in the past the number of full minutes gone by, never
    negative; for a start a minute or more ahead, a negative number. *)
Theorem duration_minutes_formula (d : Z) :
  let minutes :=
    (date_part_day d * 24 + date_part_hour d) * 60 + date_part_minute d in
  minutes = Z.quot d usec_per_minute
  /\ (0 <= d ->
      0 <= minutes
      /\ minutes * usec_per_minute <= d < (minutes + 1) * usec_per_minute)
  /\ (d <= - usec_per_minute -> minutes < 0).
Proof.
  intros minutes.
  assert (E : minutes = Z.quot d usec_per_minute).
  { subst minutes.
    unfold date_part_day, date_part_hour, date_part_minute,
      usec_per_day, usec_per_hour, usec_per_minute.
    set (day := 24 * (60 * (60 * 1000000))).
    set (hour := 60 * (60 * 1000000)).
    set (minute := 60 * 1000000).
    assert (Hday : day = 86400000000) by reflexivity.
    assert (Hhour : hour = 3600000000) by reflexivity.
    assert (Hminute : minute = 60000000) by reflexivity.
    pose proof (Z.quot_rem' d day) as H1.
    pose proof (Z.quot_rem' (Z.rem d day) hour) as H2.
    pose proof (Z.quot_rem' d hour) as H3.
    pose proof (Z.quot_rem' (Z.rem d hour) minute) as H4.
    pose proof (Z.quot_rem' d minute) as H5.
    destruct (rem_bounds d day) as [B1 B1']; [lia |].
    destruct (rem_bounds d hour) as [B3 B3']; [lia |].
    destruct (rem_bounds d minute) as [B5 B5']; [lia |].
    destruct (rem_bounds (Z.rem d day) hour) as [B2 B2']; [lia |].
    destruct (rem_bounds (Z.rem d hour) minute) as [B4 B4']; [lia |].
    rewrite Hday, Hhour, Hminute in *.
    destruct (Z.le_gt_cases 0 d) as [P | N].
    - specialize (B1 P). specialize (B3 P). specialize (B5 P).
      assert (B2p := B2 (proj1 B1)). assert (B4p := B4 (proj1 B3)).
      clear B1' B2' B3' B4' B5' B2 B4. lia.
    - assert (N' : d <= 0) by lia.
      specialize (B1' N'). specialize (B3' N'). specialize (B5' N').
      assert (B2n := B2' (proj2 B1')). assert (B4n := B4' (proj2 B3')).
      clear B1 B2 B3 B4 B5 B2' B4'. lia. }
  split; [exact E |]. rewrite E. clear E minutes.
  unfold usec_per_minute.
  pose proof (Z.quot_rem' d (60 * 1000000)) as H.
  destruct (rem_bounds d (60 * 1000000)) as [B B']; [lia |]. split.
  - intros P. specialize (B P). lia.
  - intros N. assert (N' : d <= 0) by lia. specialize (B' N'). lia.
Qed.

End SendAlertsMore.

(** * The further properties on concrete data *)

Section MoreExamples.

Import Cell GetSpikes SendAlerts Scenario.

Lemma reply_sensors_distinct : NoDup (map a_sensor_index reply).
Proof. vm_compute. repeat constructor; simpl; intuition discriminate. Defined.

Lemma threshold_only_narrows_witness :
  incl (fst (fst (fst (Get_spikes_df "key" [1; 2; 3; 4; 5] (35 # 1) world0))))
       (fst (fst (fst (Get_spikes_df "key" [1; 2; 3; 4; 5] 0 world0)))).
Proof.
  assert (H : (0 <= 35 # 1)%Q) by discriminate.
  destruct (threshold_only_narrows "key" [1; 2; 3; 4; 5] 0 (35 # 1) world0 H)
    as [Hincl _].
  exact Hincl.
Defined.

Lemma outputs_without_repeats_witness :
  NoDup (snd (fst (Get_spikes_df "key" [1; 2; 3; 4; 5] (35 # 1) world0))).
Proof.
  destruct (outputs_without_repeats "key" [1; 2; 3; 4; 5] (35 # 1) world0
              reply_sensors_distinct) as (_ & Hflagged & _).
  exact Hflagged.
Defined.

(** Sensor 1 was seen at the instant of the request, on a host six hours
    behind UTC. *)
Lemma flagged_for_staleness_witness :
  In 1 (snd (fst (Get_spikes_df "key" [1; 2; 3; 4; 5] (35 # 1) world0))) <->
  microseconds seen + timedelta_minutes 60
  < utc_clock world0 + latency world0
    + (local_utcoffset world0 + Timedelta_hours 5).
Proof.
  refine (flagged_for_staleness "key" [1; 2; 3; 4; 5] (35 # 1) world0
            {| a_sensor_index := 1; a_pm2_5_10minute := Some (40 # 1)%Q;
               a_channel_flags := Some 0; a_channel_state := Some 3;
               a_last_seen := Some seen |}
            (40 # 1)%Q 3 seen reply_sensors_distinct _ eq_refl eq_refl _
            eq_refl _ eq_refl).
  - vm_compute. auto.
  - discriminate.
  - reflexivity.
Defined.

Lemma host_clock_ahead_flags_all_witness :
  fst (Get_spikes_df "key" [1; 2; 3; 4; 5] (35 # 1) world_utc)
  = ([], {| instant := utc_clock world_utc; tzname := "America/Chicago" |},
     [1; 2; 3; 4; 5]).
Proof.
  refine (host_clock_ahead_flags_all "key" [1; 2; 3; 4; 5] (35 # 1)
            world_utc _ _ _).
  - discriminate.
  - reflexivity.
  - intros a s Ha Hs. vm_compute in Ha.
    destruct Ha as [<- | [<- | [<- | [<- | [<- | []]]]]];
      injection Hs as <-; vm_compute; discriminate.
Defined.

Lemma query_string_inj_witness : [1; 2; 3] = [1; 2; 3].
Proof. apply query_string_inj. reflexivity. Defined.

Lemma store0_stations_distinct :
  NoDup (map st_sensor_index (stations store0)).
Proof. vm_compute. repeat constructor; simpl; intuition. Defined.

Lemma store0_users_distinct : NoDup (map record_id (signups store0)).
Proof. vm_compute. repeat constructor; simpl; intuition discriminate. Defined.

Lemma Users_nearby_sensor_no_repeats_witness :
  exists ids,
    Users_nearby_sensor on_line_transform on_line_distance 1 (1000 # 1) store0
    = (Ok ids, store0)
    /\ NoDup ids.
Proof.
  exact (Users_nearby_sensor_no_repeats on_line_transform on_line_distance
           1 (1000 # 1) store0 store0_stations_distinct store0_users_distinct).
Defined.

Lemma new_alert_candidates_as_set_witness :
  Users_to_message_new_alert [11; 12] store0
  = Users_to_message_new_alert [12; 11; 11] store0.
Proof.
  assert (H : forall id : Z, In id [11; 12] <-> In id [12; 11; 11])
    by (intros id; simpl; tauto).
  destruct (new_alert_candidates_as_set [11; 12] [12; 11; 11] store0 H)
    as [E _].
  exact E.
Defined.

Lemma nearby_users_for_new_alert_witness :
  exists ids,
    SendAlerts.bind
      (Users_nearby_sensor on_line_transform on_line_distance 1 (1000 # 1))
      Users_to_message_new_alert store0
    = (Ok ids, store0)
    /\ ~ In 12 ids.
Proof.
  destruct (nearby_users_for_new_alert on_line_transform on_line_distance
              1 (1000 # 1) store0 store0_users_distinct) as (ids & E & H).
  exists ids. split; [exact E |].
  intros Hin. apply H in Hin.
  destruct Hin as (u & st & g & h & Hu & _ & _ & Eid & _ & _ & _ & _ & Ha & _).
  vm_compute in Hu.
  destruct Hu as [<- | [<- | [<- | []]]]; discriminate.
Defined.

Lemma store0_counters_set (ids : list Z) :
  forall u : @signup Z, In u (signups store0) -> In (record_id u) ids ->
                        messages_sent u <> None.
Proof.
  intros u Hu _. vm_compute in Hu.
  destruct Hu as [<- | [<- | [<- | []]]]; discriminate.
Defined.

Lemma update_user_table_outcome_witness :
  fst (update_user_table [12; 11] [5; 6] store0) = Ok tt.
Proof.
  destruct (update_user_table_outcome [12; 11] [5; 6] store0)
    as (_ & _ & Hok).
  destruct (Hok (store0_counters_set [12; 11])) as (new & E & _).
  exact E.
Defined.

Lemma update_user_table_ignores_order_witness :
  fst (update_user_table [12; 11] [5; 6] store0)
  = fst (update_user_table [11; 12] [5; 6] store0).
Proof.
  assert (H : forall id : Z, In id [12; 11] <-> In id [11; 12])
    by (intros id; simpl; tauto).
  destruct (update_user_table_ignores_order [12; 11] [11; 12] [5; 6] store0 H)
    as [E _].
  exact E.
Defined.

Lemma send_all_messages_outcome_witness :
  fst (send_all_messages delivered [11; 12] ["a"; "b"]%string store0) = Ok tt.
Proof.
  destruct (send_all_messages_outcome delivered [11; 12] ["a"; "b"]%string
              store0) as (_ & _ & Hok).
  destruct (Hok (store0_counters_set [11; 12])) as (new & E & _).
  exact E.
Defined.

(** Thirty-five minutes and a half. *)
Lemma duration_minutes_formula_witness :
  (date_part_day 2130000000 * 24 + date_part_hour 2130000000) * 60
  + date_part_minute 2130000000 = 35.
Proof.
  destruct (duration_minutes_formula 2130000000) as (E & _).
  rewrite E. reflexivity.
Defined.

End MoreExamples.
